(** * Webhook router: route resolution, configuration loading and prompt
      composition of [production/webhook-service/app/webhook_router.py]

    Shallow embedding of the Python module and proofs about it.

    Conventions of the model.

    - A Python [str] is a Rocq [string].  Text is read as its UTF-8 bytes:
      equality, concatenation, [join], [replace] of an ASCII character and
      the [in] test against an ASCII needle are the same on the bytes as on
      the code points.  Case mapping and the regular-expression engine are
      modelled on ASCII text; where the engine would be handed a byte above
      127 the model answers [Unmodelled].
    - A value that comes out of JSON or YAML is a [pyval].  Numbers are
      integers; floats are outside the model.
    - A computation that can raise returns a [res]: [Ok v], [Raise e], or
      [Unmodelled] when the Python behaviour on that input is not described
      by this development (never used to hide a behaviour a statement below
      is about). *)

From Stdlib Require Import String Ascii List ZArith Bool Arith Lia.
From Stdlib Require Import Numbers.DecimalString.
Import ListNotations.

Local Open Scope list_scope.
Local Open Scope string_scope.

(* ------------------------------------------------------------------ *)
(** ** Results of computations that may raise *)

Inductive exn : Type :=
| AttributeError   (* attribute access on a value that lacks it, e.g. None.get *)
| KeyError         (* d[k] with k absent *)
| TypeError        (* wrong operand type: iterating None, hashing a list *)
| ValueError
| OSError          (* open() failed *)
| YAMLError        (* yaml.safe_load failed *)
| ReError.         (* re.error: the regular expression does not compile *)

Inductive res (A : Type) : Type :=
| Ok (a : A)
| Raise (e : exn)
| Unmodelled.

Arguments Ok {A} a.
Arguments Raise {A} e.
Arguments Unmodelled {A}.

Definition bind {A B : Type} (m : res A) (k : A -> res B) : res B :=
  match m with
  | Ok a => k a
  | Raise e => Raise e
  | Unmodelled => Unmodelled
  end.

Notation "x <- m ;; k" := (bind m (fun x => k))
  (at level 61, m at next level, right associativity).

(** [try: m except Exception as e: h e] *)
Definition try_except {A : Type} (m : res A) (h : exn -> res A) : res A :=
  match m with
  | Raise e => h e
  | other => other
  end.

(* ------------------------------------------------------------------ *)
(** ** Python string operations used by the module *)

Module PyStr.

Definition is_ascii (c : ascii) : bool := (nat_of_ascii c <? 128)%nat.

Definition is_upper (c : ascii) : bool :=
  let n := nat_of_ascii c in ((65 <=? n) && (n <=? 90))%nat.

(** Lower-casing of one character: [A-Z] go to [a-z], every other byte is
    kept. *)
Definition lower_ascii (c : ascii) : ascii :=
  if is_upper c then ascii_of_nat (nat_of_ascii c + 32) else c.

(** [s.lower()].  Python also lower-cases letters outside ASCII; on the
    UTF-8 bytes those are left alone here.  The module calls [lower] only
    to look for the ASCII words "updated" and "assigned" in the result, and
    no letter outside ASCII lower-cases into a part of either word (the
    Kelvin sign gives a k, the dotted capital I gives an i followed by a
    combining dot), so both tests come out as in Python. *)
Fixpoint lower (s : string) : string :=
  match s with
  | EmptyString => EmptyString
  | String c s' => String (lower_ascii c) (lower s')
  end.

(** [s.startswith(p)] *)
Fixpoint startswith (p s : string) : bool :=
  match p, s with
  | EmptyString, _ => true
  | String a p', String b s' => Ascii.eqb a b && startswith p' s'
  | String _ _, EmptyString => false
  end.

(** [needle in hay] on two strings *)
Fixpoint str_in (needle hay : string) : bool :=
  startswith needle hay
  || match hay with
     | EmptyString => false
     | String _ hay' => str_in needle hay'
     end.

(** [s.replace(old, new)] for a one-character [old], as the module
    uses it. *)
Fixpoint replace (old : ascii) (new : string) (s : string) : string :=
  match s with
  | EmptyString => EmptyString
  | String c s' =>
      if Ascii.eqb c old then new ++ replace old new s'
      else String c (replace old new s')
  end.

(** [sep.join(parts)] *)
Fixpoint join (sep : string) (parts : list string) : string :=
  match parts with
  | [] => ""
  | [p] => p
  | p :: ps => p ++ sep ++ join sep ps
  end.

(** [x in xs] for a string in a list of strings *)
Fixpoint in_list (x : string) (xs : list string) : bool :=
  match xs with
  | [] => false
  | y :: ys => String.eqb x y || in_list x ys
  end.

Fixpoint all_chars (f : ascii -> bool) (s : string) : bool :=
  match s with
  | EmptyString => true
  | String c s' => f c && all_chars f s'
  end.

Definition newline : ascii := "010"%char.

End PyStr.

(* ------------------------------------------------------------------ *)
(** ** The fragment of Python's [re] that [_match_pattern] reaches *)

Module Re.
Import PyStr.

(** A regular expression of the form [^ item* $] where an item is a
    literal character or [.], possibly followed by [*]. *)
Inductive atom : Type :=
| Lit (c : ascii)
| Dot.

Record item : Type := mkItem { it_atom : atom; it_star : bool }.

(** The characters [re] gives a meaning of their own. *)
Definition is_special (c : ascii) : bool :=
  str_in (String c "") ".^$*+?{}[]\|()".

Definition atom_of (c : ascii) : option atom :=
  if Ascii.eqb c "." then Some Dot
  else if is_special c || negb (is_ascii c) then None
  else Some (Lit c).

(** Parsing of what follows the leading [^], up to and including the
    closing [$].  [None]: the expression is not in the fragment (the
    engine may reject it with [re.error], or it uses an operator that is
    not modelled). *)
Fixpoint parse_items (s : string) : option (list item) :=
  match s with
  | EmptyString => None
  | String c rest =>
      match rest with
      | EmptyString => if Ascii.eqb c "$" then Some [] else None
      | String d rest' =>
          match atom_of c with
          | None => None
          | Some a =>
              if Ascii.eqb d "*" then
                option_map (cons (mkItem a true)) (parse_items rest')
              else
                option_map (cons (mkItem a false)) (parse_items rest)
          end
      end
  end.

(** [re.compile(regex)] for an expression that starts with [^]. *)
Definition compile (regex : string) : option (list item) :=
  match regex with
  | String "^" s => parse_items s
  | _ => None
  end.

(** One character against one atom under [re.IGNORECASE]; [.] does not
    match a newline (no [re.DOTALL]). *)
Definition atom_matches (a : atom) (c : ascii) : bool :=
  match a with
  | Lit p => Ascii.eqb (lower_ascii p) (lower_ascii c)
  | Dot => negb (Ascii.eqb c newline)
  end.

(** [$] without [re.MULTILINE]: the end of the string, or just before a
    newline that ends the string. *)
Definition at_end (s : string) : bool :=
  match s with
  | EmptyString => true
  | String c EmptyString => Ascii.eqb c newline
  | _ => false
  end.

(** [a*] followed by the continuation [k]: some number of characters
    matched by [a], then [k] on what is left. *)
Fixpoint star (a : atom) (k : string -> bool) (s : string) : bool :=
  k s
  || match s with
     | EmptyString => false
     | String c s' => atom_matches a c && star a k s'
     end.

Fixpoint match_items (items : list item) (s : string) : bool :=
  match items with
  | [] => at_end s
  | mkItem a false :: items' =>
      match s with
      | EmptyString => false
      | String c s' => atom_matches a c && match_items items' s'
      end
  | mkItem a true :: items' => star a (match_items items') s
  end.

Fixpoint count_char (c : ascii) (s : string) : nat :=
  match s with
  | EmptyString => 0
  | String d s' => (if Ascii.eqb d c then 1 else 0) + count_char c s'
  end.

Definition backslash : ascii := "092"%char.

(** An expression that opens one group and never closes it: it holds one
    opening parenthesis, no closing one, and no backslash or opening
    bracket that could make the parenthesis a literal.  The parser of [re]
    rejects such an expression with [re.error], at the latest when it
    reaches the end looking for the closing parenthesis.  Expressions with
    a brace are left out (a repetition count can overflow instead). *)
Definition unclosed_group (regex : string) : bool :=
  (count_char "(" regex =? 1)%nat
  && (count_char ")" regex =? 0)%nat
  && (count_char backslash regex =? 0)%nat
  && (count_char "[" regex =? 0)%nat
  && (count_char "{" regex =? 0)%nat.

(** [bool(re.match(regex, s, re.IGNORECASE))].  The expression is compiled
    before [s] is looked at, so an expression that does not compile raises
    whatever [s] is. *)
Definition match_ignorecase (regex s : string) : res bool :=
  match compile regex with
  | None => if unclosed_group regex then Raise ReError else Unmodelled
  | Some items =>
      if all_chars is_ascii s then Ok (match_items items s) else Unmodelled
  end.

End Re.

(* ------------------------------------------------------------------ *)
(** ** Routes and the router *)

Record ProjectRoute : Type := mkRoute {
  name : string;
  namespace : string;
  agentapi_url : string;
  jira_projects : list string;
  enabled : bool
}.

(** A Python [dict] with string keys: the entries in insertion order. *)
Definition dict (V : Type) : Type := list (string * V).

Fixpoint dict_get {V : Type} (d : dict V) (k : string) : option V :=
  match d with
  | [] => None
  | (k', v) :: d' => if String.eqb k k' then Some v else dict_get d' k
  end.

(** [d[k] = v]: an existing key keeps its place, a new key goes last. *)
Fixpoint dict_set {V : Type} (d : dict V) (k : string) (v : V) : dict V :=
  match d with
  | [] => [(k, v)]
  | (k', v') :: d' =>
      if String.eqb k k' then (k', v) :: d' else (k', v') :: dict_set d' k v
  end.

Definition dict_values {V : Type} (d : dict V) : list V := map snd d.

Record WebhookRouter : Type := mkRouter {
  routes : dict ProjectRoute;
  catch_all_route : option ProjectRoute
}.

Module Router.
Import PyStr.

(** [pattern.replace('*', '.*').replace('?', '.')] *)
Definition regex_of (pattern : string) : string :=
  replace "?" "." (replace "*" ".*" pattern).

(** [WebhookRouter._match_pattern] *)
Definition _match_pattern (pattern project_key : string) : res bool :=
  if String.eqb pattern "*" then Ok true
  else
    let regex_pattern := regex_of pattern in
    Re.match_ignorecase ("^" ++ regex_pattern ++ "$") project_key.

(** First loop of [find_route_for_project]: exact matches. *)
Fixpoint exact_tier (rs : list ProjectRoute) (key : string)
  : option ProjectRoute :=
  match rs with
  | [] => None
  | route :: rs' =>
      if negb (enabled route) then exact_tier rs' key
      else if in_list key (jira_projects route) then Some route
      else exact_tier rs' key
  end.

(** The inner loop of the second loop: does any pattern match? *)
Fixpoint any_pattern (patterns : list string) (key : string) : res bool :=
  match patterns with
  | [] => Ok false
  | pattern :: ps =>
      m <- _match_pattern pattern key ;;
      if m then Ok true else any_pattern ps key
  end.

(** Second loop of [find_route_for_project]: pattern matches. *)
Fixpoint pattern_tier (rs : list ProjectRoute) (key : string)
  : res (option ProjectRoute) :=
  match rs with
  | [] => Ok None
  | route :: rs' =>
      if negb (enabled route) then pattern_tier rs' key
      else
        m <- any_pattern (jira_projects route) key ;;
        if m then Ok (Some route) else pattern_tier rs' key
  end.

(** The final step: the catch-all route, if present and enabled. *)
Definition catch_all_tier (c : option ProjectRoute) : option ProjectRoute :=
  match c with
  | Some route => if enabled route then Some route else None
  | None => None
  end.

(** [WebhookRouter.find_route_for_project] *)
Definition find_route_for_project (self : WebhookRouter) (jira_project_key : string)
  : res (option ProjectRoute) :=
  match exact_tier (dict_values (routes self)) jira_project_key with
  | Some route => Ok (Some route)
  | None =>
      r <- pattern_tier (dict_values (routes self)) jira_project_key ;;
      match r with
      | Some route => Ok (Some route)
      | None => Ok (catch_all_tier (catch_all_route self))
      end
  end.

End Router.

(* ------------------------------------------------------------------ *)
(** ** Values parsed from JSON and YAML *)

#[warnings="-register-all"] Inductive pyval : Type :=
| VNone
| VBool (b : bool)
| VInt (z : Z)
| VStr (s : string)
| VList (l : list pyval)
| VDict (d : list (string * pyval)).

Module Py.

(** [bool(v)] *)
Definition truthy (v : pyval) : bool :=
  match v with
  | VNone => false
  | VBool b => b
  | VInt z => negb (Z.eqb z 0)
  | VStr s => negb (String.eqb s "")
  | VList l => match l with [] => false | _ => true end
  | VDict d => match d with [] => false | _ => true end
  end.

(** [v.get(k, default)]: only a dict has [get]. *)
Definition py_get (v : pyval) (k : string) (default : pyval) : res pyval :=
  match v with
  | VDict d => Ok (match dict_get d k with Some x => x | None => default end)
  | _ => Raise AttributeError
  end.

(** [v[k]] for a string [k]. *)
Definition py_index (v : pyval) (k : string) : res pyval :=
  match v with
  | VDict d => match dict_get d k with Some x => Ok x | None => Raise KeyError end
  | _ => Raise TypeError
  end.

(** [for x in v]: the elements a loop over [v] visits. *)
Definition py_iter (v : pyval) : res (list pyval) :=
  match v with
  | VList l => Ok l
  | VDict d => Ok (map (fun kv => VStr (fst kv)) d)
  | VStr s => Ok (map (fun c => VStr (String c "")) (list_ascii_of_string s))
  | _ => Raise TypeError
  end.

Definition str_of_Z (z : Z) : string := NilZero.string_of_int (Z.to_int z).

(** [str(v)], as an f-string or [str.format] renders a value.  The [repr]
    of a container is not modelled. *)
Definition py_str (v : pyval) : res string :=
  match v with
  | VNone => Ok "None"
  | VBool true => Ok "True"
  | VBool false => Ok "False"
  | VInt z => Ok (str_of_Z z)
  | VStr s => Ok s
  | VList _ | VDict _ => Unmodelled
  end.

(** Typed views of a value, for the fields the dataclass declares. *)
Definition as_str (v : pyval) : res string :=
  match v with VStr s => Ok s | _ => Unmodelled end.

Definition as_bool (v : pyval) : res bool :=
  match v with VBool b => Ok b | _ => Unmodelled end.

Fixpoint as_str_list_aux (l : list pyval) : res (list string) :=
  match l with
  | [] => Ok []
  | VStr s :: l' => r <- as_str_list_aux l' ;; Ok (s :: r)
  | _ => Unmodelled
  end.

Definition as_str_list (v : pyval) : res (list string) :=
  match v with VList l => as_str_list_aux l | _ => Unmodelled end.

End Py.

(* ------------------------------------------------------------------ *)
(** ** Loading and reloading the configuration *)

Module Config.
Import Py.

(** What [load_config] finds at [config_path]. *)
Inductive ConfigSource : Type :=
| NoFile                       (* os.path.exists(config_path) is False *)
| ReadFails (e : exn)          (* open() or yaml.safe_load() raises e *)
| Parsed (config : pyval).     (* yaml.safe_load() returned config *)

(** The process environment, as [os.environ.get] sees it. *)
Definition Env : Type := string -> option string.

(** [os.getenv(k, default)] *)
Definition getenv (env : Env) (k default : string) : string :=
  match env k with Some v => v | None => default end.

(** A method body that mutates [self] and may raise: the result and the
    router as the body left it. *)
Definition M (A : Type) : Type := WebhookRouter -> res A * WebhookRouter.

Definition ret {A : Type} (a : A) : M A := fun self => (Ok a, self).

Definition bindM {A B : Type} (m : M A) (k : A -> M B) : M B :=
  fun self =>
    match m self with
    | (Ok a, self') => k a self'
    | (Raise e, self') => (Raise e, self')
    | (Unmodelled, self') => (Unmodelled, self')
    end.

Definition lift {A : Type} (r : res A) : M A := fun self => (r, self).

Notation "x <~ m ;; k" := (bindM m (fun x => k))
  (at level 61, m at next level, right associativity).

(** [self.routes[route.name] = route] *)
Definition set_route (route : ProjectRoute) : M unit :=
  fun self =>
    (Ok tt, mkRouter (dict_set (routes self) (name route) route)
                     (catch_all_route self)).

(** [self.catch_all_route = route] *)
Definition set_catch_all (route : option ProjectRoute) : M unit :=
  fun self => (Ok tt, mkRouter (routes self) route).

(** [try: m except Exception: h] on a method body *)
Definition try_exceptM {A : Type} (m : M A) (h : exn -> M A) : M A :=
  fun self =>
    match m self with
    | (Raise e, self') => h e self'
    | other => other
    end.

(** The [ProjectRoute(...)] built from one entry of [routes]. *)
Definition route_of_config (route_config : pyval) : res ProjectRoute :=
  n <- py_index route_config "name" ;;
  ns <- py_index route_config "namespace" ;;
  url <- py_index route_config "agentapi_url" ;;
  jp <- py_get route_config "jira_projects" (VList []) ;;
  en <- py_get route_config "enabled" (VBool true) ;;
  n <- as_str n ;;
  ns <- as_str ns ;;
  url <- as_str url ;;
  jp <- as_str_list jp ;;
  en <- as_bool en ;;
  Ok (mkRoute n ns url jp en).

(** The [ProjectRoute(...)] built from the [catch_all] entry. *)
Definition catch_all_of_config (catch_all_config : pyval) : res ProjectRoute :=
  n <- py_index catch_all_config "name" ;;
  ns <- py_index catch_all_config "namespace" ;;
  url <- py_index catch_all_config "agentapi_url" ;;
  en <- py_get catch_all_config "enabled" (VBool true) ;;
  n <- as_str n ;;
  ns <- as_str ns ;;
  url <- as_str url ;;
  en <- as_bool en ;;
  Ok (mkRoute n ns url ["*"] en).

(** The loop over the [routes] entries. *)
Fixpoint load_routes (items : list pyval) : M unit :=
  match items with
  | [] => ret tt
  | route_config :: rest =>
      route <~ lift (route_of_config route_config) ;;
      _ <~ set_route route ;;
      load_routes rest
  end.

Definition default_agentapi_url : string :=
  "http://claude-dev-env-service.claude-dev.svc.cluster.local:3284".

(** [WebhookRouter._load_from_env] *)
Definition _load_from_env (env : Env) : M unit :=
  let default_url := getenv env "DEFAULT_AGENTAPI_URL" default_agentapi_url in
  let default_namespace := getenv env "DEFAULT_NAMESPACE" "claude-dev" in
  if negb (String.eqb default_url "") then
    set_catch_all (Some (mkRoute "default" default_namespace default_url ["*"] true))
  else ret tt.

(** The body of the [try] in [load_config]. *)
Definition load_config_body (src : ConfigSource) (env : Env) : M unit :=
  match src with
  | NoFile => _load_from_env env
  | ReadFails e => lift (Raise e)
  | Parsed config =>
      items <~ lift (rs <- py_get config "routes" (VList []) ;; py_iter rs) ;;
      _ <~ load_routes items ;;
      catch_all_config <~ lift (py_get config "catch_all" VNone) ;;
      if truthy catch_all_config then
        route <~ lift (catch_all_of_config catch_all_config) ;;
        set_catch_all (Some route)
      else ret tt
  end.

(** [WebhookRouter.load_config] *)
Definition load_config (src : ConfigSource) (env : Env) : M unit :=
  try_exceptM (load_config_body src env) (fun _ => _load_from_env env).

(** [WebhookRouter.reload_config] *)
Definition reload_config (src : ConfigSource) (env : Env) : M unit :=
  fun self =>
    let self := mkRouter [] (catch_all_route self) in   (* self.routes.clear() *)
    let self := mkRouter (routes self) None in          (* self.catch_all_route = None *)
    load_config src env self.

(** [WebhookRouter.__init__] *)
Definition init (src : ConfigSource) (env : Env) : res unit * WebhookRouter :=
  load_config src env (mkRouter [] None).

End Config.

(* ------------------------------------------------------------------ *)
(** ** Prompt templates and the HTTP handlers *)

Module Handlers.
Import PyStr Py Config Router.

(** [CLAUDE_PROMPT_TEMPLATES] *)
Definition CLAUDE_PROMPT_TEMPLATES : dict string :=
  [ ("issue_created", "
New JIRA ticket created: {ticket_key}

Summary: {summary}
Description: {description}
Priority: {priority}
Assignee: {assignee}
Project: {project_key}

Please:
1. Analyze this ticket
2. Create a branch named 'feature/{ticket_key}'
3. Set up initial project structure if needed
4. Create a plan in CLAUDE.md for implementing this feature
5. Start working on the implementation

Ticket URL: {ticket_url}
");
    ("issue_updated", "
JIRA ticket updated: {ticket_key}

Summary: {summary}
Description: {description}
Priority: {priority}
Status: {status}
Assignee: {assignee}
Project: {project_key}

Changes made:
{changelog}

Please:
1. Review the changes to this ticket
2. Update your implementation plan if needed
3. Continue or adjust your work based on the updates

Ticket URL: {ticket_url}
");
    ("issue_assigned", "
JIRA ticket assigned to you: {ticket_key}

Summary: {summary}
Description: {description}
Priority: {priority}
Assignee: {assignee}
Project: {project_key}

Please:
1. Review this newly assigned ticket
2. Create a branch named 'feature/{ticket_key}' if it doesn't exist
3. Create or update your implementation plan
4. Begin work on the ticket

Ticket URL: {ticket_url}
") ].

Definition is_name_char (c : ascii) : bool :=
  let n := nat_of_ascii c in
  (((97 <=? n) && (n <=? 122)) || ((65 <=? n) && (n <=? 90)) || (n =? 95))%nat.

(** [str.format] with keyword arguments, for templates whose replacement
    fields are plain names.  [hole] is the name read so far when inside braces. *)
Fixpoint format_from (template : string) (hole : option string)
         (kwargs : dict pyval) : res string :=
  match template with
  | EmptyString =>
      match hole with
      | None => Ok ""
      | Some _ => Raise ValueError
      end
  | String c t =>
      match hole with
      | None =>
          if Ascii.eqb c "{" then format_from t (Some "") kwargs
          else if Ascii.eqb c "}" then Unmodelled
          else r <- format_from t None kwargs ;; Ok (String c r)
      | Some nm =>
          if Ascii.eqb c "}" then
            if String.eqb nm "" then Unmodelled
            else
              v <- match dict_get kwargs nm with
                   | Some v => Ok v
                   | None => Raise KeyError
                   end ;;
              s <- py_str v ;;
              r <- format_from t None kwargs ;;
              Ok (s ++ r)
          else if is_name_char c then format_from t (Some (nm ++ String c "")) kwargs
          else Unmodelled
      end
  end.

Definition format (template : string) (kwargs : dict pyval) : res string :=
  format_from template None kwargs.

(** The line [f"- {field}: {from_val} → {to_val}"] of [_extract_changelog]. *)
Definition changelog_line (item : pyval) : res string :=
  field <- py_get item "field" (VStr "") ;;
  from_val <- py_get item "fromString" (VStr "None") ;;
  to_val <- py_get item "toString" (VStr "None") ;;
  field <- py_str field ;;
  from_val <- py_str from_val ;;
  to_val <- py_str to_val ;;
  Ok ("- " ++ field ++ ": " ++ from_val ++ " → " ++ to_val).

(** The loop of [_extract_changelog], building [changes]. *)
Fixpoint changelog_lines (items : list pyval) : res (list string) :=
  match items with
  | [] => Ok []
  | item :: rest =>
      l <- changelog_line item ;;
      ls <- changelog_lines rest ;;
      Ok (l :: ls)
  end.

(** [_extract_changelog] *)
Definition _extract_changelog (webhook_data : pyval) : res string :=
  changelog <- py_get webhook_data "changelog" (VDict []) ;;
  items <- py_get changelog "items" (VList []) ;;
  items <- py_iter items ;;
  changes <- changelog_lines items ;;
  Ok (match changes with
      | [] => "No specific changes detected"
      | _ => join (String newline "") changes
      end).

(** Lines 282-286 of [handle_jira_webhook]: the template key chosen for
    an event name. *)
Definition template_key_for (webhook_event : string) : string :=
  if str_in "updated" (lower webhook_event) then "issue_updated"
  else if str_in "assigned" (lower webhook_event) then "issue_assigned"
  else "issue_created".

(** What the handlers answer; one constructor per [return]. *)
Inductive Response : Type :=
| NoJsonData                                   (* 400, status error *)
| IgnoredNoIssue                               (* 200, status ignored *)
| IgnoredNoRoute (project_key : string)        (* 200, status ignored *)
| Routed (route : string) (ticket : pyval) (project : string)  (* 200, status success *)
| AgentApiRejected (status_code : nat)         (* 500, status error *)
| AgentApiUnreachable (detail : string)        (* 500, status error *)
| InternalError (e : exn)                      (* 500, from the outer except *)
| NoPrompt                                     (* 400 *)
| NoRouteAvailable                             (* 400 *)
| Triggered (ok : bool) (route : string) (claude_response : string)   (* 200 *)
| TriggerFailed (detail : string).             (* 500 *)

Definition http_status (r : Response) : nat :=
  match r with
  | NoJsonData | NoPrompt | NoRouteAvailable => 400
  | IgnoredNoIssue | IgnoredNoRoute _ | Routed _ _ _ | Triggered _ _ _ => 200
  | AgentApiRejected _ | AgentApiUnreachable _ | InternalError _
  | TriggerFailed _ => 500
  end.

(** What [requests.post] comes back with. *)
Inductive PostResult : Type :=
| HttpResponse (status_code : nat) (text : string)
| RequestException (detail : string).

(** A handler either answers at once, or makes one POST of
    [{"content": content, "type": "user"}] to [url] and answers from its
    result. *)
Inductive Dispatch : Type :=
| Respond (r : Response)
| Post (url : string) (content : pyval) (k : PostResult -> Response).

(** The [ticket_info] dict of [handle_jira_webhook]; the entries are
    evaluated in the order written. *)
Definition ticket_info_of (env : Env) (data fields ticket_key : pyval)
           (project_key webhook_event : string) : res (dict pyval) :=
  summary <- py_get fields "summary" (VStr "") ;;
  description <- py_get fields "description" (VStr "") ;;
  priority <- (p <- py_get fields "priority" (VDict []) ;; py_get p "name" (VStr "None")) ;;
  status <- (p <- py_get fields "status" (VDict []) ;; py_get p "name" (VStr "Unknown")) ;;
  assignee <- (a <- py_get fields "assignee" VNone ;;
               if truthy a then
                 a <- py_get fields "assignee" (VDict []) ;;
                 py_get a "displayName" (VStr "Unassigned")
               else Ok (VStr "Unassigned")) ;;
  tk <- py_str ticket_key ;;
  let ticket_url :=
    getenv env "JIRA_BASE_URL" "https://your-jira.atlassian.net" ++ "/browse/" ++ tk in
  changelog <- (if str_in "updated" (lower webhook_event)
                then _extract_changelog data else Ok "") ;;
  Ok [ ("ticket_key", ticket_key);
       ("project_key", VStr project_key);
       ("summary", summary);
       ("description", description);
       ("priority", priority);
       ("status", status);
       ("assignee", assignee);
       ("ticket_url", VStr ticket_url);
       ("changelog", VStr changelog) ].

(** The prompt [handle_jira_webhook] composes once a route is found. *)
Definition compose_prompt (env : Env) (data fields ticket_key : pyval)
           (project_key : string) (webhook_event : pyval) : res string :=
  webhook_event <- match webhook_event with
                   | VStr s => Ok s
                   | _ => Raise AttributeError      (* no .lower() *)
                   end ;;
  let template_key := template_key_for webhook_event in
  ticket_info <- ticket_info_of env data fields ticket_key project_key webhook_event ;;
  prompt_template <- match dict_get CLAUDE_PROMPT_TEMPLATES template_key with
                     | Some t => Ok t
                     | None => match dict_get CLAUDE_PROMPT_TEMPLATES "issue_created" with
                               | Some t => Ok t
                               | None => Raise KeyError
                               end
                     end ;;
  format prompt_template ticket_info.

(** The body of the outer [try] of [handle_jira_webhook]; [data] is what
    [request.get_json()] returned. *)
Definition handle_jira_webhook_body (router : WebhookRouter) (env : Env)
           (data : pyval) : res Dispatch :=
  if negb (truthy data) then Ok (Respond NoJsonData)
  else
    webhook_event <- py_get data "webhookEvent" (VStr "") ;;
    issue <- py_get data "issue" (VDict []) ;;
    if negb (truthy issue) then Ok (Respond IgnoredNoIssue)
    else
      fields <- py_get issue "fields" (VDict []) ;;
      project <- py_get fields "project" (VDict []) ;;
      project_key <- py_get project "key" (VStr "UNKNOWN") ;;
      ticket_key <- py_get issue "key" (VStr "UNKNOWN") ;;
      project_key <- as_str project_key ;;
      target_route <- find_route_for_project router project_key ;;
      match target_route with
      | None => Ok (Respond (IgnoredNoRoute project_key))
      | Some target_route =>
          prompt <- compose_prompt env data fields ticket_key project_key webhook_event ;;
          Ok (Post (agentapi_url target_route ++ "/message") (VStr prompt)
                (fun response =>
                   match response with
                   | HttpResponse status_code _ =>
                       if (status_code =? 200)%nat
                       then Routed (name target_route) ticket_key project_key
                       else AgentApiRejected status_code
                   | RequestException detail => AgentApiUnreachable detail
                   end))
      end.

(** [handle_jira_webhook] *)
Definition handle_jira_webhook (router : WebhookRouter) (env : Env)
           (data : pyval) : res Dispatch :=
  try_except (handle_jira_webhook_body router env data)
             (fun e => Ok (Respond (InternalError e))).

(** [router.routes.get(project_name)] for a key of any JSON type: a
    string is looked up, a list or dict cannot be hashed, anything else is
    no key of the table. *)
Definition routes_get (router : WebhookRouter) (project_name : pyval)
  : res (option ProjectRoute) :=
  match project_name with
  | VStr s => Ok (dict_get (routes router) s)
  | VList _ | VDict _ => Raise TypeError
  | _ => Ok None
  end.

(** The body of the [try] of [trigger_claude_manual]. *)
Definition trigger_claude_manual_body (router : WebhookRouter) (data : pyval)
  : res Dispatch :=
  prompt <- py_get data "prompt" (VStr "") ;;
  project_name <- py_get data "project" (VStr "") ;;
  if negb (truthy prompt) then Ok (Respond NoPrompt)
  else
    target_route <- (if truthy project_name then routes_get router project_name
                     else Ok None) ;;
    let target_route :=
      match target_route with
      | Some r => Some r
      | None => catch_all_route router
      end in
    match target_route with
    | None => Ok (Respond NoRouteAvailable)
    | Some target_route =>
        Ok (Post (agentapi_url target_route ++ "/message") prompt
              (fun response =>
                 match response with
                 | HttpResponse status_code text =>
                     Triggered (status_code =? 200)%nat (name target_route) text
                 | RequestException detail => TriggerFailed detail
                 end))
    end.

(** [trigger_claude_manual] *)
Definition trigger_claude_manual (router : WebhookRouter) (data : pyval)
  : res Dispatch :=
  try_except (trigger_claude_manual_body router data)
             (fun e => Ok (Respond (InternalError e))).

End Handlers.

(* ------------------------------------------------------------------ *)
(** ** Notions the specification uses, written after its words *)

Module Spec.
Import PyStr.

(** The specification's glob reading of a pattern: [*] stands for zero or
    more of any character, [?] for exactly one of any character, every
    other character for itself up to case; the whole pattern against the
    whole key. *)
Fixpoint glob_star (rest : string -> bool) (key : string) : bool :=
  rest key
  || match key with
     | EmptyString => false
     | String _ key' => glob_star rest key'
     end.

Fixpoint glob_spec (pattern key : string) : bool :=
  match pattern with
  | EmptyString => match key with EmptyString => true | _ => false end
  | String p pattern' =>
      if Ascii.eqb p "*" then glob_star (glob_spec pattern') key
      else
        match key with
        | EmptyString => false
        | String c key' =>
            (Ascii.eqb p "?" || Ascii.eqb (lower_ascii p) (lower_ascii c))
            && glob_spec pattern' key'
        end
  end.

(** Patterns and keys on which the two readings can be compared: a
    pattern made of [*], [?] and ASCII characters that mean nothing to
    the regular-expression engine; a key of ASCII characters without a
    newline. *)
Definition is_plain (c : ascii) : bool :=
  is_ascii c && negb (Re.is_special c).

Definition plain_pattern (pattern : string) : bool :=
  all_chars (fun c => Ascii.eqb c "*" || Ascii.eqb c "?" || is_plain c) pattern.

Definition plain_key (key : string) : bool :=
  all_chars (fun c => is_ascii c && negb (Ascii.eqb c newline)) key.

(** The items the engine works with for a plain pattern. *)
Fixpoint items_of (pattern : string) : list Re.item :=
  match pattern with
  | EmptyString => []
  | String c pattern' =>
      (if Ascii.eqb c "*" then Re.mkItem Re.Dot true
       else if Ascii.eqb c "?" then Re.mkItem Re.Dot false
       else Re.mkItem (Re.Lit c) false) :: items_of pattern'
  end.

(** [needle] occurs in [s] up to case ([needle] is given in lower case). *)
Definition contains_ci (needle s : string) : Prop :=
  exists pre mid post, s = pre ++ mid ++ post /\ lower mid = needle.

(** A route with its [enabled] flag cleared. *)
Definition disable (r : ProjectRoute) : ProjectRoute :=
  mkRoute (name r) (namespace r) (agentapi_url r) (jira_projects r) false.

(** A changelog item as the specification describes it: a field name, and
    a previous and a new value that may be missing. *)
Record Change : Type := mkChange {
  ch_field : string;
  ch_from : option string;
  ch_to : option string
}.

Definition or_None (o : option string) : string :=
  match o with Some s => s | None => "None" end.

(** The line the specification asks for. *)
Definition spec_line (c : Change) : string :=
  "- " ++ ch_field c ++ ": " ++ or_None (ch_from c) ++ " → " ++ or_None (ch_to c).

(** An entry of a JSON object holds the optional text [o]; an absent
    entry and a null one both count as missing. *)
Definition holds_opt (entry : option pyval) (o : option string) : Prop :=
  match o with
  | Some s => entry = Some (VStr s)
  | None => entry = None \/ entry = Some VNone
  end.

(** The JSON object [item] is the changelog item [c]. *)
Definition represents (item : pyval) (c : Change) : Prop :=
  exists d, item = VDict d
            /\ dict_get d "field" = Some (VStr (ch_field c))
            /\ holds_opt (dict_get d "fromString") (ch_from c)
            /\ holds_opt (dict_get d "toString") (ch_to c).

End Spec.

(* ------------------------------------------------------------------ *)
(** ** Concrete tables and payloads used as examples *)

Module Examples.
Import Config.

Definition route_A : ProjectRoute :=
  mkRoute "team-a" "ns-a" "http://a.example:3284" ["PROJ"] true.

Definition route_A2 : ProjectRoute :=
  mkRoute "team-a2" "ns-a2" "http://a2.example:3284" ["PROJ"] true.

Definition route_W : ProjectRoute :=
  mkRoute "team-w" "ns-w" "http://w.example:3284" ["PRO*"] true.

Definition route_off : ProjectRoute :=
  mkRoute "team-off" "ns-off" "http://off.example:3284" ["OFF"; "*"] false.

Definition main_catch_all : ProjectRoute :=
  mkRoute "main" "ns-main" "http://main.example:3284" ["*"] true.

Definition no_env : Env := fun _ => None.

Definition empty_url_env : Env :=
  fun k => if String.eqb k "DEFAULT_AGENTAPI_URL" then Some "" else None.

Definition served_table : WebhookRouter :=
  mkRouter [("team-a", route_A)] (Some main_catch_all).

Definition route_entry (n : string) (fields : dict pyval) : pyval :=
  VDict (("name", VStr n) :: fields).

(** A configuration whose second route lacks its [agentapi_url]. *)
Definition broken_config : pyval :=
  VDict [ ("routes",
           VList [ route_entry "team-w"
                     [ ("namespace", VStr "ns-w");
                       ("agentapi_url", VStr "http://w.example:3284");
                       ("jira_projects", VList [VStr "PRO*"]) ];
                   route_entry "team-x" [ ("namespace", VStr "ns-x") ] ]);
          ("catch_all",
           route_entry "main"
             [ ("namespace", VStr "ns-main");
               ("agentapi_url", VStr "http://main.example:3284") ]) ].

Definition changelog_payload : dict pyval :=
  [ ("webhookEvent", VStr "jira:issue_updated");
    ("changelog",
     VDict [ ("items",
              VList [ VDict [ ("field", VStr "status");
                              ("fromString", VStr "Open");
                              ("toString", VStr "Done") ];
                      VDict [ ("field", VStr "assignee");
                              ("fromString", VNone) ] ]) ]) ].

Definition guarded_table : WebhookRouter :=
  mkRouter [("team-a", route_A); ("team-off", route_off)] (Some main_catch_all).

(** A route whose pattern holds an opening parenthesis. *)
Definition route_paren : ProjectRoute :=
  mkRoute "team-p" "ns-p" "http://p.example:3284" ["PROJ("] true.

Definition paren_table : WebhookRouter :=
  mkRouter [("team-p", route_paren)] (Some main_catch_all).

Definition switched_off_table : WebhookRouter :=
  mkRouter [("team-off", route_off)] (Some (Spec.disable main_catch_all)).

Definition issue_payload (event : string) (extra : dict pyval) : pyval :=
  VDict [ ("webhookEvent", VStr event);
          ("issue", VDict [ ("key", VStr "PROJ-1");
                            ("fields", VDict (("project", VDict [("key", VStr "PROJ")])
                                              :: ("summary", VStr "Fix bug")
                                              :: extra)) ]) ].

End Examples.

(* ------------------------------------------------------------------ *)
(** ** The read-only endpoints and the reload endpoint *)

Module Endpoints.
Import PyStr Py Config Router Handlers.

(** The JSON body of [/health]. *)
Record Health : Type := mkHealth {
  health_status : string;
  routes_loaded : nat;
  catch_all_enabled : bool
}.

(** [health_check] *)
Definition health_check (router : WebhookRouter) : Health :=
  mkHealth "healthy" (length (routes router))
           (match catch_all_route router with Some _ => true | None => false end).

(** What [/config/reload] answers. *)
Inductive ReloadResponse : Type :=
| ReloadSucceeded (routes_loaded : nat)     (* 200, status success *)
| ReloadFailed (e : exn).                   (* 500, status error *)

(** The endpoint [reload_config] of the Flask application. *)
Definition reload_config_endpoint (src : ConfigSource) (env : Env) : M ReloadResponse :=
  try_exceptM
    (_ <~ Config.reload_config src env ;;
     fun router => (Ok (ReloadSucceeded (length (routes router))), router))
    (fun e => ret (ReloadFailed e)).

(** One entry of the listing of [/routes]; the catch-all entry carries no
    [jira_projects]. *)
Record RouteInfo : Type := mkRouteInfo {
  ri_name : string;
  ri_namespace : string;
  ri_agentapi_url : string;
  ri_jira_projects : option (list string);
  ri_enabled : bool
}.

Definition route_info (route : ProjectRoute) : RouteInfo :=
  mkRouteInfo (name route) (namespace route) (agentapi_url route)
              (Some (jira_projects route)) (enabled route).

Definition catch_all_info (route : ProjectRoute) : RouteInfo :=
  mkRouteInfo (name route) (namespace route) (agentapi_url route) None (enabled route).

(** [list_routes]: the [routes] list and the [catch_all] entry. *)
Definition list_routes (router : WebhookRouter) : list RouteInfo * option RouteInfo :=
  (map route_info (dict_values (routes router)),
   option_map catch_all_info (catch_all_route router)).

(** What [requests.get] comes back with. *)
Inductive GetResult : Type :=
| GetResponse (status_code : nat)
| GetRaises (detail : string).

(** One entry of the body of [/claude-status]. *)
Inductive RouteStatus : Type :=
| StatusDisabled
| StatusProbed (online : bool) (response_code : nat) (ns : string)
| StatusOffline (error : string) (ns : string).

(** The [try] around one [requests.get(url/status)]. *)
Definition probe (get : string -> GetResult) (route : ProjectRoute) : RouteStatus :=
  match get (agentapi_url route ++ "/status") with
  | GetResponse status_code =>
      StatusProbed (status_code =? 200)%nat status_code (namespace route)
  | GetRaises detail => StatusOffline detail (namespace route)
  end.

(** The loop of [claude_status] over the routes, filling [status_info]. *)
Fixpoint status_of_routes (get : string -> GetResult) (rs : list ProjectRoute)
         (status_info : dict RouteStatus) : dict RouteStatus :=
  match rs with
  | [] => status_info
  | route :: rs' =>
      status_of_routes get rs'
        (dict_set status_info (name route)
           (if negb (enabled route) then StatusDisabled else probe get route))
  end.

(** [claude_status] *)
Definition claude_status (router : WebhookRouter) (get : string -> GetResult)
  : dict RouteStatus :=
  let status_info := status_of_routes get (dict_values (routes router)) [] in
  match catch_all_route router with
  | Some c =>
      if enabled c then dict_set status_info "catch_all" (probe get c)
      else status_info
  | None => status_info
  end.

End Endpoints.

(* ------------------------------------------------------------------ *)
(** ** The single-endpoint handler of [webhook_handler.py] *)

Module Minimal.
Import PyStr Py Config Handlers.

(** [AGENTAPI_URL], read from the environment when the module is loaded. *)
Definition AGENTAPI_URL (env : Env) : string :=
  getenv env "AGENTAPI_URL" "http://localhost:3284".

(** [CLAUDE_PROMPT_TEMPLATE] *)
Definition CLAUDE_PROMPT_TEMPLATE : string := "
New JIRA ticket created: {ticket_key}

Summary: {summary}
Description: {description}
Priority: {priority}
Assignee: {assignee}

Please:
1. Analyze this ticket
2. Create a branch named 'feature/{ticket_key}'
3. Set up initial project structure if needed
4. Create a plan in CLAUDE.md for implementing this feature
5. Start working on the implementation

Ticket URL: {ticket_url}
".

Inductive Response : Type :=
| TriggeredFor (ticket_key : pyval)        (* 200, status success *)
| SendFailed                               (* 500, status error *)
| NotCreation                              (* 200, status ignored *)
| Failed (e : exn)                         (* 500, from the except *)
| PostRaised (detail : string)             (* 500, from the except *)
| NoPrompt                                 (* 400 *)
| ManualResult (ok : bool) (claude_response : string).   (* 200 *)

Inductive Dispatch : Type :=
| Respond (r : Response)
| Post (url : string) (content : pyval) (k : PostResult -> Response).

(** [v == 'text'] for a JSON value [v]. *)
Definition eq_str (v : pyval) (text : string) : bool :=
  match v with VStr s => String.eqb s text | _ => false end.

(** [os.getenv(k)] rendered inside an f-string: the value, or None. *)
Definition getenv_str (env : Env) (k : string) : string :=
  match env k with Some v => v | None => "None" end.

(** The body of the [try] of [handle_jira_webhook]. *)
Definition handle_jira_webhook_body (env : Env) (data : pyval) : res Dispatch :=
  webhook_event <- py_get data "webhookEvent" VNone ;;
  if eq_str webhook_event "jira:issue_created" then
    issue <- py_get data "issue" (VDict []) ;;
    fields <- py_get issue "fields" (VDict []) ;;
    ticket_key <- py_get issue "key" VNone ;;
    summary <- py_get fields "summary" (VStr "") ;;
    description <- py_get fields "description" (VStr "") ;;
    priority <- (p <- py_get fields "priority" (VDict []) ;; py_get p "name" (VStr "None")) ;;
    assignee <- (a <- py_get fields "assignee" VNone ;;
                 if truthy a then
                   a <- py_get fields "assignee" (VDict []) ;;
                   py_get a "displayName" (VStr "Unassigned")
                 else Ok (VStr "Unassigned")) ;;
    key_again <- py_get issue "key" VNone ;;
    tk <- py_str key_again ;;
    let ticket_url := getenv_str env "JIRA_BASE_URL" ++ "/browse/" ++ tk in
    let ticket_info :=
      [ ("ticket_key", ticket_key);
        ("summary", summary);
        ("description", description);
        ("priority", priority);
        ("assignee", assignee);
        ("ticket_url", VStr ticket_url) ] in
    prompt <- format CLAUDE_PROMPT_TEMPLATE ticket_info ;;
    Ok (Post (AGENTAPI_URL env ++ "/message") (VStr prompt)
          (fun response =>
             match response with
             | HttpResponse status_code _ =>
                 if (status_code =? 200)%nat then TriggeredFor ticket_key
                 else SendFailed
             | RequestException detail => PostRaised detail
             end))
  else Ok (Respond NotCreation).

(** [handle_jira_webhook] of [webhook_handler.py] *)
Definition handle_jira_webhook (env : Env) (data : pyval) : res Dispatch :=
  try_except (handle_jira_webhook_body env data)
             (fun e => Ok (Respond (Failed e))).

(** [trigger_claude_manual] of [webhook_handler.py] *)
Definition trigger_claude_manual (env : Env) (data : pyval) : res Dispatch :=
  try_except
    (prompt <- py_get data "prompt" (VStr "") ;;
     if negb (truthy prompt) then Ok (Respond NoPrompt)
     else
       Ok (Post (AGENTAPI_URL env ++ "/message") prompt
             (fun response =>
                match response with
                | HttpResponse status_code text =>
                    ManualResult (status_code =? 200)%nat text
                | RequestException detail => PostRaised detail
                end)))
    (fun e => Ok (Respond (Failed e))).

End Minimal.

(* ------------------------------------------------------------------ *)
(** ** Notions used to state further properties of the code *)

Module Describe.
Import PyStr Py Config Router.

(** The table after the entries [rs] have been stored one after the other. *)
Definition stored (rs : list ProjectRoute) (table : dict ProjectRoute)
  : dict ProjectRoute :=
  fold_left (fun d r => dict_set d (name r) r) rs table.

(** The last route of [rs] that is called [n]. *)
Definition last_named (n : string) (rs : list ProjectRoute) : option ProjectRoute :=
  find (fun r => String.eqb n (name r)) (rev rs).

(** Every key occurs once and is the name of its route. *)
Definition well_keyed (table : dict ProjectRoute) : Prop :=
  NoDup (map fst table) /\ Forall (fun kv => fst kv = name (snd kv)) table.

(** The catch-all [_load_from_env] stores for an environment, if any. *)
Definition env_catch_all (env : Env) : option ProjectRoute :=
  let url := getenv env "DEFAULT_AGENTAPI_URL" default_agentapi_url in
  if String.eqb url "" then None
  else Some (mkRoute "default" (getenv env "DEFAULT_NAMESPACE" "claude-dev")
                     url ["*"] true).

(** A pattern without wildcards. *)
Definition literal_pattern (pattern : string) : bool :=
  all_chars Spec.is_plain pattern.

(** An entry of a JSON object that is absent or a text. *)
Definition text_or_absent (entry : option pyval) : Prop :=
  entry = None \/ exists s, entry = Some (VStr s).

(** An entry that is absent, or an object whose [k] is absent or a text. *)
Definition object_or_absent (entry : option pyval) (k : string) : Prop :=
  entry = None \/ exists d, entry = Some (VDict d) /\ text_or_absent (dict_get d k).

Definition is_object (v : pyval) : bool :=
  match v with VDict _ => true | _ => false end.

(** The text of an entry, or [default] when the entry is absent. *)
Definition entry_text (entry : option pyval) (default : string) : string :=
  match entry with Some (VStr s) => s | _ => default end.

(** The text under [k] of an entry that is an object, or [default]. *)
Definition nested_text (entry : option pyval) (k default : string) : string :=
  match entry with
  | Some (VDict d) => entry_text (dict_get d k) default
  | _ => default
  end.

(** An assignee entry the handler can read: absent, a value that counts as
    false (null, an empty object), or an object whose [displayName] is
    absent or a text. *)
Definition readable_assignee (entry : option pyval) : Prop :=
  entry = None
  \/ (exists v, entry = Some v /\ truthy v = false)
  \/ (exists d, entry = Some (VDict d) /\ text_or_absent (dict_get d "displayName")).

End Describe.

(* ------------------------------------------------------------------ *)
(** ** More concrete tables, configurations and payloads *)

Module Samples.
Import Config Endpoints Examples.

Definition route_star : ProjectRoute :=
  mkRoute "team-star" "ns-star" "http://star.example:3284" ["*"] true.

Definition route_A_moved : ProjectRoute :=
  mkRoute "team-a" "ns-a" "http://a-new.example:3284" ["PROJ"; "NEXT"] true.

Definition entry_of (r : ProjectRoute) : pyval :=
  VDict [ ("name", VStr (name r));
          ("namespace", VStr (namespace r));
          ("agentapi_url", VStr (agentapi_url r));
          ("jira_projects", VList (map VStr (jira_projects r)));
          ("enabled", VBool (enabled r)) ].

(** A configuration that names team-a twice and has no catch-all. *)
Definition repeating_config : dict pyval :=
  [ ("routes", VList [entry_of route_A; entry_of route_W; entry_of route_A_moved]) ].

(** A configuration whose second route has no endpoint. *)
Definition truncated_config : dict pyval :=
  [ ("routes",
     VList [ entry_of route_W;
             VDict [("name", VStr "team-x"); ("namespace", VStr "ns-x")];
             entry_of route_A ]);
    ("catch_all", entry_of main_catch_all) ].

Definition only_catch_all : WebhookRouter := mkRouter [] (Some main_catch_all).

Definition no_catch_all : WebhookRouter := mkRouter [("team-a", route_A)] None.

Definition issue_entries (project_key : string) (extra : dict pyval) : dict pyval :=
  [ ("key", VStr "PROJ-1");
    ("fields", VDict (("project", VDict [("key", VStr project_key)])
                      :: ("summary", VStr "Fix bug") :: extra)) ].

Definition payload (event project_key : string) (extra : dict pyval) : dict pyval :=
  [ ("webhookEvent", VStr event); ("issue", VDict (issue_entries project_key extra)) ].

Definition all_up : string -> GetResult := fun _ => GetResponse 200.

Definition off_is_down : string -> GetResult :=
  fun url => if String.eqb url "http://off.example:3284/status"
             then GetRaises "connection refused" else GetResponse 200.

End Samples.

(* ------------------------------------------------------------------ *)
(** ** Lemmas on strings *)

Section StringFacts.
Import PyStr.

Lemma in_list_In (x : string) (xs : list string) :
  in_list x xs = true <-> In x xs.
Proof.
  induction xs as [|y ys IH]; simpl.
  - split; [discriminate | tauto].
  - rewrite orb_true_iff, IH, String.eqb_eq. split; intros [H|H]; auto.
Qed.

Lemma in_list_false (x : string) (xs : list string) :
  ~ In x xs -> in_list x xs = false.
Proof.
  intros H. destruct (in_list x xs) eqn:E; [|reflexivity].
  apply in_list_In in E. contradiction.
Qed.

Lemma append_assoc (a b c : string) : (a ++ b) ++ c = a ++ (b ++ c).
Proof. induction a as [|x a IH]; simpl; [reflexivity | now rewrite IH]. Qed.

Lemma startswith_spec (p s : string) :
  startswith p s = true <-> exists post, s = p ++ post.
Proof.
  revert s. induction p as [|a p IH]; intros s; simpl.
  - split; [intros _; exists s; reflexivity | reflexivity].
  - destruct s as [|b s].
    + split; [discriminate | intros [post H]; discriminate].
    + rewrite andb_true_iff, Ascii.eqb_eq, IH. split.
      * intros [-> [post ->]]. exists post. reflexivity.
      * intros [post [= -> ->]]. split; [reflexivity | exists post; reflexivity].
Qed.

(** [needle in hay] holds exactly when [needle] is a contiguous part of
    [hay]. *)
Lemma str_in_spec (needle hay : string) :
  str_in needle hay = true <-> exists pre post, hay = pre ++ needle ++ post.
Proof.
  induction hay as [|c hay IH].
  - simpl. rewrite orb_false_r, startswith_spec. split.
    + intros [post H]. exists "", post. exact H.
    + intros [pre [post H]]. destruct pre; [exists post; exact H | discriminate].
  - cbn [str_in]. rewrite orb_true_iff, startswith_spec, IH. split.
    + intros [[post H] | [pre [post H]]].
      * exists "", post. exact H.
      * exists (String c pre), post. simpl. now rewrite H.
    + intros [pre [post H]]. destruct pre as [|x pre]; simpl in H.
      * left. exists post. exact H.
      * right. injection H as _ H. exists pre, post. exact H.
Qed.

Lemma lower_app (a b : string) : lower (a ++ b) = lower a ++ lower b.
Proof. induction a as [|x a IH]; simpl; [reflexivity | now rewrite IH]. Qed.

Lemma lower_split (s a b : string) :
  lower s = a ++ b -> exists x y, s = x ++ y /\ lower x = a /\ lower y = b.
Proof.
  revert s. induction a as [|c a IH]; intros s H; simpl in H.
  - exists "", s. auto.
  - destruct s as [|d s]; simpl in H; [discriminate|].
    injection H as Hc H. destruct (IH s H) as (x & y & -> & Hx & Hy).
    exists (String d x), y. simpl. rewrite Hc, Hx. auto.
Qed.

(** The test the handler performs is the specification's
    case-insensitive containment. *)
Lemma contains_ci_iff (needle s : string) :
  Spec.contains_ci needle s <-> str_in needle (lower s) = true.
Proof.
  rewrite str_in_spec. unfold Spec.contains_ci. split.
  - intros (pre & mid & post & -> & <-).
    exists (lower pre), (lower post). now rewrite !lower_app.
  - intros (pre' & post' & H).
    destruct (lower_split _ _ _ H) as (pre & rest & -> & <- & H').
    destruct (lower_split _ _ _ H') as (mid & post & -> & <- & <-).
    exists pre, mid, post. auto.
Qed.

End StringFacts.

(* ------------------------------------------------------------------ *)
(** ** Route resolution *)

Section Lookup.
Import PyStr Router Spec.

Lemma dict_values_app {V : Type} (d1 d2 : dict V) :
  dict_values (d1 ++ d2)%list = (dict_values d1 ++ dict_values d2)%list.
Proof. apply map_app. Qed.

Lemma exact_tier_app (l1 l2 : list ProjectRoute) (key : string) :
  exact_tier (l1 ++ l2)%list key =
  match exact_tier l1 key with
  | Some r => Some r
  | None => exact_tier l2 key
  end.
Proof.
  induction l1 as [|r l1 IH]; simpl; [reflexivity|].
  destruct (enabled r); simpl; [|exact IH].
  destruct (in_list key (jira_projects r)); [reflexivity | exact IH].
Qed.

Lemma pattern_tier_app (l1 l2 : list ProjectRoute) (key : string) :
  pattern_tier (l1 ++ l2)%list key =
  (r <- pattern_tier l1 key ;;
   match r with
   | Some r => Ok (Some r)
   | None => pattern_tier l2 key
   end).
Proof.
  induction l1 as [|r l1 IH]; simpl; [reflexivity|].
  destruct (enabled r); simpl; [|exact IH].
  destruct (any_pattern (jira_projects r) key) as [[|]| |]; simpl;
    [reflexivity | exact IH | reflexivity | reflexivity].
Qed.

(** No enabled route before the end of [l] holds [key] exactly. *)
Lemma exact_tier_none (l : list ProjectRoute) (key : string) :
  Forall (fun r => enabled r = false \/ ~ In key (jira_projects r)) l ->
  exact_tier l key = None.
Proof.
  induction 1 as [|r l [Hd|Hn] _ IH]; simpl; [reflexivity| |].
  - rewrite Hd. exact IH.
  - rewrite (in_list_false _ _ Hn). destruct (enabled r); exact IH.
Qed.

Lemma exact_tier_enabled (l : list ProjectRoute) (key : string) (r : ProjectRoute) :
  exact_tier l key = Some r ->
  In r l /\ enabled r = true /\ In key (jira_projects r).
Proof.
  induction l as [|x l IH]; simpl; [discriminate|].
  destruct (enabled x) eqn:Ex; simpl.
  - destruct (in_list key (jira_projects x)) eqn:Ei.
    + intros [= <-]. apply in_list_In in Ei. auto.
    + intros H. destruct (IH H) as (? & ? & ?). auto.
  - intros H. destruct (IH H) as (? & ? & ?). auto.
Qed.

Lemma any_pattern_true (ps : list string) (key : string) :
  any_pattern ps key = Ok true ->
  exists p, In p ps /\ _match_pattern p key = Ok true.
Proof.
  induction ps as [|p ps IH]; simpl; [discriminate|].
  destruct (_match_pattern p key) as [[|]| |] eqn:E; simpl; try discriminate.
  - intros _. exists p. auto.
  - intros H. destruct (IH H) as (q & ? & ?). exists q. auto.
Qed.

Lemma any_pattern_false (ps : list string) (key : string) :
  (forall p, In p ps -> _match_pattern p key = Ok false) ->
  any_pattern ps key = Ok false.
Proof.
  induction ps as [|p ps IH]; simpl; intros H; [reflexivity|].
  rewrite (H p (or_introl eq_refl)). simpl. apply IH. intros q Hq. apply H. auto.
Qed.

Lemma pattern_tier_enabled (l : list ProjectRoute) (key : string) (r : ProjectRoute) :
  pattern_tier l key = Ok (Some r) ->
  In r l /\ enabled r = true
  /\ exists p, In p (jira_projects r) /\ _match_pattern p key = Ok true.
Proof.
  induction l as [|x l IH]; simpl; [discriminate|].
  destruct (enabled x) eqn:Ex; simpl.
  - destruct (any_pattern (jira_projects x) key) as [[|]| |] eqn:Ea; simpl;
      try discriminate.
    + intros [= <-]. apply any_pattern_true in Ea. auto.
    + intros H. destruct (IH H) as (? & ? & ?). auto.
  - intros H. destruct (IH H) as (? & ? & ?). auto.
Qed.

Lemma pattern_tier_none (l : list ProjectRoute) (key : string) :
  (forall r, In r l -> enabled r = true ->
             forall p, In p (jira_projects r) -> _match_pattern p key = Ok false) ->
  pattern_tier l key = Ok None.
Proof.
  induction l as [|x l IH]; simpl; intros H; [reflexivity|].
  assert (IH' : pattern_tier l key = Ok None)
    by (apply IH; intros r Hr; apply H; auto).
  destruct (enabled x) eqn:Ex; simpl; [|exact IH'].
  rewrite (any_pattern_false _ _ (H x (or_introl eq_refl) Ex)). simpl. exact IH'.
Qed.

Lemma catch_all_tier_enabled (c : option ProjectRoute) (r : ProjectRoute) :
  catch_all_tier c = Some r -> c = Some r /\ enabled r = true.
Proof.
  destruct c as [x|]; simpl; [|discriminate].
  destruct (enabled x) eqn:E; [|discriminate]. intros [= <-]. auto.
Qed.

Lemma find_route_enabled (self : WebhookRouter) (key : string) (r : ProjectRoute) :
  find_route_for_project self key = Ok (Some r) -> enabled r = true.
Proof.
  unfold find_route_for_project.
  destruct (exact_tier _ key) as [x|] eqn:E1.
  - intros [= <-]. apply exact_tier_enabled in E1. tauto.
  - destruct (pattern_tier _ key) as [[x|]| |] eqn:E2; simpl; try discriminate.
    + intros [= <-]. apply pattern_tier_enabled in E2. tauto.
    + intros [= H]. apply catch_all_tier_enabled in H. tauto.
Qed.

Lemma exact_tier_skip_disabled (l1 l2 : list ProjectRoute) (R : ProjectRoute) (key : string) :
  exact_tier (l1 ++ disable R :: l2)%list key = exact_tier (l1 ++ l2)%list key.
Proof. rewrite !exact_tier_app. reflexivity. Qed.

Lemma pattern_tier_skip_disabled (l1 l2 : list ProjectRoute) (R : ProjectRoute) (key : string) :
  pattern_tier (l1 ++ disable R :: l2)%list key = pattern_tier (l1 ++ l2)%list key.
Proof. rewrite !pattern_tier_app. reflexivity. Qed.

(** C1 (as amended).  Whenever the key is an exact, case-sensitive member
    of the pattern set of an enabled route A and no enabled route that
    comes before A in the table's iteration order holds the key exactly,
    lookup returns A: the exact tier is finished before any wildcard
    pattern is tried, so a route B whose wildcard matches the key never
    wins over A, wherever B was inserted. *)
Theorem exact_match_beats_wildcard
    (before after : dict ProjectRoute) (k : string) (A : ProjectRoute)
    (c : option ProjectRoute) (key : string) :
  enabled A = true ->
  In key (jira_projects A) ->
  Forall (fun r => enabled r = false \/ ~ In key (jira_projects r))
         (dict_values before) ->
  find_route_for_project (mkRouter (before ++ (k, A) :: after)%list c) key
  = Ok (Some A).
Proof.
  intros HA Hin Hbefore. unfold find_route_for_project. simpl.
  rewrite dict_values_app, exact_tier_app, (exact_tier_none _ _ Hbefore).
  simpl. rewrite HA. simpl.
  apply in_list_In in Hin. rewrite Hin. reflexivity.
Qed.

(** C6.  The route lookup returns, if any, is enabled; a disabled route in
    the table leaves every lookup as it is without that route; a disabled
    catch-all leaves every lookup as it is without a catch-all. *)
Theorem disabled_routes_invisible (key : string) :
  (forall self r,
      find_route_for_project self key = Ok (Some r) -> enabled r = true)
  /\ (forall before after k R c,
         find_route_for_project
           (mkRouter (before ++ (k, disable R) :: after)%list c) key
         = find_route_for_project (mkRouter (before ++ after)%list c) key)
  /\ (forall table C,
         find_route_for_project (mkRouter table (Some (disable C))) key
         = find_route_for_project (mkRouter table None) key).
Proof.
  split; [|split].
  - intros self r. apply find_route_enabled.
  - intros before after k R c. unfold find_route_for_project. simpl.
    rewrite !dict_values_app. simpl.
    rewrite exact_tier_skip_disabled, pattern_tier_skip_disabled. reflexivity.
  - intros table C. reflexivity.
Qed.

(** Where the catch-all is the last resort: when no enabled route holds the
    key exactly and [_match_pattern] returns False on every pattern of
    every enabled route, lookup returns the catch-all route if there is one
    and it is enabled, and none otherwise; with no enabled route and no
    catch-all, lookup returns none for every key. *)
Theorem catch_all_is_last_resort (self : WebhookRouter) (key : string) :
  ((forall r, In r (dict_values (routes self)) -> enabled r = true ->
              ~ In key (jira_projects r)
              /\ forall p, In p (jira_projects r) -> _match_pattern p key = Ok false) ->
   find_route_for_project self key
   = Ok (match catch_all_route self with
         | Some c => if enabled c then Some c else None
         | None => None
         end))
  /\ ((forall r, In r (dict_values (routes self)) -> enabled r = false) ->
      catch_all_route self = None ->
      find_route_for_project self key = Ok None).
Proof.
  assert (main :
    (forall r, In r (dict_values (routes self)) -> enabled r = true ->
               ~ In key (jira_projects r)
               /\ forall p, In p (jira_projects r) -> _match_pattern p key = Ok false) ->
    find_route_for_project self key = Ok (catch_all_tier (catch_all_route self))).
  { intros H. unfold find_route_for_project.
    rewrite exact_tier_none.
    - rewrite pattern_tier_none; [reflexivity|].
      intros r Hr He. apply (H r Hr He).
    - apply Forall_forall. intros r Hr.
      destruct (enabled r) eqn:He; [right; apply (H r Hr He) | left; reflexivity]. }
  split.
  - exact main.
  - intros Hoff Hnone. rewrite main.
    + rewrite Hnone. reflexivity.
    + intros r Hr He. rewrite (Hoff r Hr) in He. discriminate.
Qed.

(** C7.  A table with one enabled route whose pattern is [PROJ(] and an
    enabled catch-all, and the key [OTHER]: the route does not hold the key
    exactly and its pattern does not match the key under the
    specification's reading of patterns, so no enabled route matches.
    Lookup does not return the catch-all: the pattern reaches the
    regular-expression engine unescaped, as [^PROJ($], which does not
    compile, and the error leaves lookup; the webhook handler answers 500
    for such a ticket and posts nothing.  The same table with the pattern
    matched as the specification reads it would give the catch-all, as
    lookup does for the pattern [PROJ-*]. *)
Theorem unclosed_paren_defeats_catch_all :
  dict_values (routes Examples.paren_table) = [Examples.route_paren]
  /\ enabled Examples.route_paren = true
  /\ jira_projects Examples.route_paren = ["PROJ("]
  /\ in_list "OTHER" (jira_projects Examples.route_paren) = false
  /\ glob_spec "PROJ(" "OTHER" = false
  /\ catch_all_route Examples.paren_table = Some Examples.main_catch_all
  /\ enabled Examples.main_catch_all = true
  /\ _match_pattern "PROJ(" "OTHER" = Raise ReError
  /\ find_route_for_project Examples.paren_table "OTHER" = Raise ReError
  /\ Handlers.handle_jira_webhook Examples.paren_table Examples.no_env
       (VDict (Samples.payload "jira:issue_created" "OTHER" []))
     = Ok (Handlers.Respond (Handlers.InternalError ReError))
  /\ find_route_for_project
       (mkRouter [("team-p", mkRoute "team-p" "ns-p" "http://p.example:3284" ["PROJ-*"] true)]
                 (Some Examples.main_catch_all)) "OTHER"
     = Ok (Some Examples.main_catch_all).
Proof. repeat split; reflexivity. Qed.

End Lookup.

(* ------------------------------------------------------------------ *)
(** ** Loading and reloading *)

Section Loading.
Import Py Config Examples.

Lemma router_eta (self : WebhookRouter) :
  mkRouter (routes self) (catch_all_route self) = self.
Proof. destruct self; reflexivity. Qed.

Lemma _load_from_env_result (env : Env) (self : WebhookRouter) :
  _load_from_env env self =
  (Ok tt,
   mkRouter (routes self)
     (let url := getenv env "DEFAULT_AGENTAPI_URL" default_agentapi_url in
      if String.eqb url "" then catch_all_route self
      else Some (mkRoute "default" (getenv env "DEFAULT_NAMESPACE" "claude-dev")
                         url ["*"] true))).
Proof.
  unfold _load_from_env. cbv zeta.
  destruct (String.eqb _ ""); simpl; [rewrite router_eta|]; reflexivity.
Qed.

(** The loop over the routes never touches the catch-all. *)
Lemma load_routes_keeps_catch_all (items : list pyval) :
  forall self r self',
    load_routes items self = (r, self') ->
    catch_all_route self' = catch_all_route self.
Proof.
  induction items as [|rc items IH]; simpl; intros self r self'.
  - intros [= _ <-]. reflexivity.
  - unfold bindM, lift, set_route.
    destruct (route_of_config rc) as [route| |].
    + intros H. apply IH in H. exact H.
    + intros [= _ <-]. reflexivity.
    + intros [= _ <-]. reflexivity.
Qed.

(** When the body of the [try] raises, no catch-all has been stored yet. *)
Lemma body_raise_keeps_catch_all (src : ConfigSource) (env : Env)
      (self partial : WebhookRouter) (e : exn) :
  load_config_body src env self = (Raise e, partial) ->
  catch_all_route partial = catch_all_route self.
Proof.
  destruct src as [|e0|config]; simpl.
  - rewrite _load_from_env_result. discriminate.
  - unfold lift. intros [= _ <-]. reflexivity.
  - unfold bindM, lift.
    destruct (rs <- py_get config "routes" (VList []);; py_iter rs) as [items| |];
      [| intros [= _ <-]; reflexivity | discriminate].
    destruct (load_routes items self) as [[[]| |] self1] eqn:El;
      [| intros [= _ <-]; eapply load_routes_keeps_catch_all; exact El
       | discriminate].
    apply load_routes_keeps_catch_all in El.
    destruct (py_get config "catch_all" VNone) as [cc| |];
      [| intros [= _ <-]; exact El | discriminate].
    destruct (truthy cc).
    + destruct (catch_all_of_config cc) as [route| |];
        [| intros [= _ <-]; exact El | discriminate].
      unfold set_catch_all. discriminate.
    + unfold ret. discriminate.
Qed.

(** C3 (as amended).  A failure while loading is caught inside load: for
    every configuration source on which loading raises, reload returns
    normally; the previous routes and catch-all are gone; the table holds
    the routes that were loaded before the failure, and its catch-all is
    the route built from the environment defaults (unset when the default
    endpoint is the empty string). *)
Theorem reload_swallows_load_failure
    (src : ConfigSource) (env : Env) (self partial : WebhookRouter) (e : exn) :
  load_config_body src env (mkRouter [] None) = (Raise e, partial) ->
  reload_config src env self =
  (Ok tt,
   mkRouter (routes partial)
     (let url := getenv env "DEFAULT_AGENTAPI_URL" default_agentapi_url in
      if String.eqb url "" then None
      else Some (mkRoute "default" (getenv env "DEFAULT_NAMESPACE" "claude-dev")
                         url ["*"] true))).
Proof.
  intros H. unfold reload_config, load_config, try_exceptM. simpl.
  rewrite H, _load_from_env_result.
  rewrite (body_raise_keeps_catch_all _ _ _ _ _ H). reflexivity.
Qed.

(** C5 (as amended).  When the configuration source is absent or
    unreadable, load returns normally, leaves the routes as they were and
    stores a single catch-all route named default, built from the endpoint
    URL and the namespace of the environment, each with a built-in value
    when its variable is not set; the catch-all is left as it was only
    when the endpoint variable is set to the empty string. *)
Theorem load_falls_back_to_env (src : ConfigSource) (env : Env) :
  src = NoFile \/ (exists e, src = ReadFails e) ->
  (forall self,
      load_config src env self =
      (Ok tt,
       mkRouter (routes self)
         (let url := getenv env "DEFAULT_AGENTAPI_URL" default_agentapi_url in
          if String.eqb url "" then catch_all_route self
          else Some (mkRoute "default" (getenv env "DEFAULT_NAMESPACE" "claude-dev")
                             url ["*"] true))))
  /\ (env "DEFAULT_AGENTAPI_URL" = None ->
      init src env =
      (Ok tt,
       mkRouter []
         (Some (mkRoute "default" (getenv env "DEFAULT_NAMESPACE" "claude-dev")
                        default_agentapi_url ["*"] true))))
  /\ (env "DEFAULT_AGENTAPI_URL" = Some "" ->
      init src env = (Ok tt, mkRouter [] None)).
Proof.
  intros Hsrc.
  assert (main : forall self,
    load_config src env self = _load_from_env env self).
  { intros self. unfold load_config, try_exceptM.
    destruct Hsrc as [-> | [e ->]]; simpl.
    - rewrite _load_from_env_result. reflexivity.
    - reflexivity. }
  split; [|split].
  - intros self. rewrite main. apply _load_from_env_result.
  - intros Hunset. unfold init. rewrite main, _load_from_env_result.
    unfold getenv at 1. rewrite Hunset. reflexivity.
  - intros Hempty. unfold init. rewrite main, _load_from_env_result.
    unfold getenv at 1. rewrite Hempty. reflexivity.
Qed.

End Loading.

(* ------------------------------------------------------------------ *)
(** ** Pattern matching *)

Section Patterns.
Import PyStr Router Spec.

Lemma regex_of_cons (c : ascii) (pattern : string) :
  regex_of (String c pattern) =
  if Ascii.eqb c "*" then String "." (String "*" (regex_of pattern))
  else if Ascii.eqb c "?" then String "." (regex_of pattern)
  else String c (regex_of pattern).
Proof.
  unfold regex_of. simpl.
  destruct (Ascii.eqb c "*"); simpl; [reflexivity|].
  destruct (Ascii.eqb c "?"); reflexivity.
Qed.

Lemma plain_char (c : ascii) :
  is_plain c = true ->
  Ascii.eqb c "*" = false /\ Ascii.eqb c "?" = false
  /\ Re.atom_of c = Some (Re.Lit c).
Proof.
  destruct c as [[] [] [] [] [] [] [] []]; intros H;
    solve [discriminate H | repeat split; reflexivity].
Qed.

Lemma pattern_char_cases (c : ascii) :
  (Ascii.eqb c "*" || Ascii.eqb c "?" || is_plain c) = true ->
  c = "*"%char \/ c = "?"%char \/ is_plain c = true.
Proof.
  rewrite !orb_true_iff, !Ascii.eqb_eq. tauto.
Qed.

Lemma plain_pattern_cons (c : ascii) (pattern : string) :
  plain_pattern (String c pattern) = true ->
  (Ascii.eqb c "*" || Ascii.eqb c "?" || is_plain c) = true
  /\ plain_pattern pattern = true.
Proof. intros H. apply andb_true_iff in H. exact H. Qed.

Lemma plain_key_cons (c : ascii) (key : string) :
  plain_key (String c key) = true ->
  is_ascii c = true /\ Ascii.eqb c newline = false /\ plain_key key = true.
Proof.
  intros H. apply andb_true_iff in H. destruct H as [Hc Hk].
  apply andb_true_iff in Hc. destruct Hc as [Ha Hn].
  apply negb_true_iff in Hn. auto.
Qed.

(** What follows a character of a plain pattern in the expression is
    never a [*] of its own. *)
Lemma regex_head_not_star (pattern : string) :
  plain_pattern pattern = true ->
  exists d rest, (regex_of pattern ++ "$") = String d rest
                 /\ Ascii.eqb d "*" = false.
Proof.
  destruct pattern as [|c pattern].
  - intros _. exists "$"%char, "". split; reflexivity.
  - intros H. apply plain_pattern_cons in H. destruct H as [Hc _].
    rewrite regex_of_cons.
    destruct (pattern_char_cases c Hc) as [-> | [-> | Hp]]; simpl.
    + eexists. eexists. split; reflexivity.
    + eexists. eexists. split; reflexivity.
    + destruct (plain_char c Hp) as (Hs & Hq & _). rewrite Hs, Hq. simpl.
      eexists. eexists. split; [reflexivity | exact Hs].
Qed.

Lemma parse_items_plain_item (c d : ascii) (rest : string) (a : Re.atom) :
  Re.atom_of c = Some a ->
  Ascii.eqb d "*" = false ->
  Re.parse_items (String c (String d rest))
  = option_map (cons (Re.mkItem a false)) (Re.parse_items (String d rest)).
Proof. intros Ha Hd. cbn [Re.parse_items]. rewrite Ha, Hd. reflexivity. Qed.

Lemma parse_items_star_item (c : ascii) (rest : string) (a : Re.atom) :
  Re.atom_of c = Some a ->
  Re.parse_items (String c (String "*" rest))
  = option_map (cons (Re.mkItem a true)) (Re.parse_items rest).
Proof. intros Ha. cbn [Re.parse_items]. rewrite Ha. reflexivity. Qed.

Lemma parse_plain (pattern : string) :
  plain_pattern pattern = true ->
  Re.parse_items (regex_of pattern ++ "$") = Some (items_of pattern).
Proof.
  induction pattern as [|c pattern IH]; [reflexivity|].
  intros H. apply plain_pattern_cons in H. destruct H as [Hc Hrest].
  specialize (IH Hrest).
  destruct (regex_head_not_star pattern Hrest) as (d & rest & Hhead & Hd).
  rewrite regex_of_cons. cbn [items_of].
  destruct (pattern_char_cases c Hc) as [-> | [-> | Hp]].
  - change (Re.parse_items (String "." (String "*" (regex_of pattern ++ "$")))
            = Some (Re.mkItem Re.Dot true :: items_of pattern)).
    rewrite (parse_items_star_item "." _ Re.Dot eq_refl), IH. reflexivity.
  - change (Re.parse_items (String "." (regex_of pattern ++ "$"))
            = Some (Re.mkItem Re.Dot false :: items_of pattern)).
    rewrite Hhead, (parse_items_plain_item "." d rest Re.Dot eq_refl Hd).
    rewrite <- Hhead, IH. reflexivity.
  - destruct (plain_char c Hp) as (Hs & Hq & Ha). rewrite Hs, Hq.
    change (Re.parse_items (String c (regex_of pattern ++ "$"))
            = Some (Re.mkItem (Re.Lit c) false :: items_of pattern)).
    rewrite Hhead, (parse_items_plain_item c d rest _ Ha Hd).
    rewrite <- Hhead, IH. reflexivity.
Qed.

Lemma at_end_plain (key : string) :
  plain_key key = true ->
  Re.at_end key = match key with EmptyString => true | _ => false end.
Proof.
  destruct key as [|c [|d key]]; try reflexivity.
  intros H. apply plain_key_cons in H. simpl. tauto.
Qed.

Lemma star_dot_plain (f g : string -> bool) (key : string) :
  (forall k, plain_key k = true -> f k = g k) ->
  plain_key key = true ->
  Re.star Re.Dot f key = glob_star g key.
Proof.
  intros Hfg. induction key as [|c key IH]; intros Hk; simpl.
  - rewrite (Hfg "" eq_refl). reflexivity.
  - rewrite (Hfg _ Hk). apply plain_key_cons in Hk. destruct Hk as (_ & Hc & Hk).
    rewrite Hc, (IH Hk). reflexivity.
Qed.

Lemma match_items_plain (pattern : string) :
  plain_pattern pattern = true ->
  forall key, plain_key key = true ->
  Re.match_items (items_of pattern) key = glob_spec pattern key.
Proof.
  induction pattern as [|c pattern IH]; intros Hp key Hk.
  - apply at_end_plain, Hk.
  - apply plain_pattern_cons in Hp. destruct Hp as [Hc Hrest].
    specialize (IH Hrest). cbn [items_of glob_spec].
    destruct (pattern_char_cases c Hc) as [-> | [-> | Hpl]].
    + cbn. apply star_dot_plain; assumption.
    + cbn. destruct key as [|d key]; [reflexivity|].
      apply plain_key_cons in Hk. destruct Hk as (_ & Hd & Hk).
      rewrite Hd, (IH _ Hk). reflexivity.
    + destruct (plain_char c Hpl) as (Hs & Hq & _). rewrite Hs, Hq. cbn.
      destruct key as [|d key]; [reflexivity|].
      apply plain_key_cons in Hk. destruct Hk as (_ & _ & Hk).
      rewrite (IH _ Hk). reflexivity.
Qed.

Lemma glob_star_anything (key : string) : glob_spec "*" key = true.
Proof.
  cbn. induction key as [|c key IH]; [reflexivity|].
  simpl. exact IH.
Qed.

Lemma plain_key_ascii (key : string) :
  plain_key key = true -> all_chars is_ascii key = true.
Proof.
  induction key as [|c key IH]; [reflexivity|].
  intros H. apply plain_key_cons in H. destruct H as (Hc & _ & Hk).
  simpl. rewrite Hc. auto.
Qed.

(** Where the two readings agree: on a pattern made of [*], [?] and ASCII
    characters without a meaning in regular expressions, and a key of
    ASCII characters without a newline, [_match_pattern] returns what the
    specification's glob reading says. *)
Lemma _match_pattern_plain (pattern key : string) :
  plain_pattern pattern = true ->
  plain_key key = true ->
  _match_pattern pattern key = Ok (glob_spec pattern key).
Proof.
  intros Hp Hk. unfold _match_pattern.
  destruct (String.eqb pattern "*") eqn:E.
  - apply String.eqb_eq in E. subst. now rewrite glob_star_anything.
  - unfold Re.match_ignorecase.
    change (Re.compile ("^" ++ regex_of pattern ++ "$"))
      with (Re.parse_items (regex_of pattern ++ "$")).
    rewrite (parse_plain _ Hp), (plain_key_ascii _ Hk).
    now rewrite (match_items_plain _ Hp _ Hk).
Qed.

(** C2.  The pattern [P.OJ] matches the key [PROJ], because the dot
    reaches the regular-expression engine unescaped and stands for any
    character there; under the specification's reading, where a dot is a
    literal character, it does not match.  A pattern without such
    characters behaves as the specification says: [proj-*] matches
    [PROJ-123] under both. *)
Theorem unescaped_dot_matches_any_character :
  _match_pattern "P.OJ" "PROJ" = Ok true
  /\ glob_spec "P.OJ" "PROJ" = false
  /\ _match_pattern "proj-*" "PROJ-123" = Ok true
  /\ glob_spec "proj-*" "PROJ-123" = true.
Proof. repeat split; reflexivity. Qed.

End Patterns.

(* ------------------------------------------------------------------ *)
(** ** Prompt composition and the handlers *)

Section Prompts.
Import PyStr Py Config Router Handlers Spec Examples.

(** C4.  With [priority: null] in the issue fields the extraction raises
    (the value of [fields.get('priority', {})] is None, which has no
    [get]) and the handler answers 500 without composing a prompt; the
    same payload without the null priority, still with [assignee: null],
    is rendered with the documented defaults. *)
Theorem null_priority_aborts_extraction :
  handle_jira_webhook (mkRouter [] (Some main_catch_all)) no_env
    (issue_payload "jira:issue_created" [("priority", VNone); ("assignee", VNone)])
  = Ok (Respond (InternalError AttributeError))
  /\ exists prompt k,
      handle_jira_webhook (mkRouter [] (Some main_catch_all)) no_env
        (issue_payload "jira:issue_created" [("assignee", VNone)])
      = Ok (Post "http://main.example:3284/message" (VStr prompt) k)
      /\ str_in "Priority: None" prompt = true
      /\ str_in "Assignee: Unassigned" prompt = true.
Proof.
  split; [reflexivity|].
  eexists. eexists. split; [reflexivity|]. split; reflexivity.
Qed.

(** C8.  The template chosen for an event name: the updated template when
    the name contains "updated" in any case; otherwise the assigned
    template when it contains "assigned" in any case; otherwise the
    created template.  One key is returned, and "updated" is looked for
    first. *)
Theorem template_key_classifies (webhook_event : string) :
  (contains_ci "updated" webhook_event ->
   template_key_for webhook_event = "issue_updated")
  /\ (~ contains_ci "updated" webhook_event ->
      contains_ci "assigned" webhook_event ->
      template_key_for webhook_event = "issue_assigned")
  /\ (~ contains_ci "updated" webhook_event ->
      ~ contains_ci "assigned" webhook_event ->
      template_key_for webhook_event = "issue_created").
Proof.
  unfold template_key_for. rewrite !contains_ci_iff.
  destruct (str_in "updated" (lower webhook_event));
    destruct (str_in "assigned" (lower webhook_event));
    repeat split; intros; try reflexivity; congruence.
Qed.

Lemma changelog_line_spec (item : pyval) (c : Change) :
  represents item c -> changelog_line item = Ok (spec_line c).
Proof.
  intros (d & -> & Hf & Hfrom & Hto).
  unfold changelog_line, spec_line, py_get. rewrite Hf.
  destruct c as [f [a|] [b|]]; simpl in *.
  - rewrite Hfrom, Hto. reflexivity.
  - rewrite Hfrom. destruct Hto as [-> | ->]; reflexivity.
  - rewrite Hto. destruct Hfrom as [-> | ->]; reflexivity.
  - destruct Hfrom as [-> | ->]; destruct Hto as [-> | ->]; reflexivity.
Qed.

Lemma changelog_lines_spec (items : list pyval) (changes : list Change) :
  Forall2 represents items changes ->
  changelog_lines items = Ok (map spec_line changes).
Proof.
  induction 1 as [|item c items changes Hr _ IH]; simpl; [reflexivity|].
  rewrite (changelog_line_spec _ _ Hr), IH. reflexivity.
Qed.

(** C9.  For a payload whose changelog items each carry a field name, the
    rendered changelog has one line [- field: from → to] per item, in
    order, a missing previous or new value reading None, the lines joined
    by newlines; with no items, and with no changelog or no item list at
    all, the result is the text "No specific changes detected". *)
Theorem changelog_rendering (data : dict pyval) :
  (forall changelog items changes,
      dict_get data "changelog" = Some (VDict changelog) ->
      dict_get changelog "items" = Some (VList items) ->
      Forall2 represents items changes ->
      _extract_changelog (VDict data) =
      Ok (match changes with
          | [] => "No specific changes detected"
          | _ => join (String newline "") (map spec_line changes)
          end))
  /\ (dict_get data "changelog" = None ->
      _extract_changelog (VDict data) = Ok "No specific changes detected")
  /\ (forall changelog,
         dict_get data "changelog" = Some (VDict changelog) ->
         dict_get changelog "items" = None ->
         _extract_changelog (VDict data) = Ok "No specific changes detected").
Proof.
  split; [|split].
  - intros changelog items changes Hc Hi Hr.
    unfold _extract_changelog, py_get. rewrite Hc. simpl. rewrite Hi. simpl.
    rewrite (changelog_lines_spec _ _ Hr). simpl.
    destruct changes; reflexivity.
  - intros Hc. unfold _extract_changelog, py_get. rewrite Hc. reflexivity.
  - intros changelog Hc Hi.
    unfold _extract_changelog, py_get. rewrite Hc. simpl. rewrite Hi. reflexivity.
Qed.

(** C10 (as amended).  A manual trigger that carries a non-empty prompt
    never looks at the enabled flag: when the request names, by a non-empty
    name, a route of the table, the prompt is posted to that route's
    endpoint and the answer reports that route, whatever its enabled flag;
    when the request names no route of the table, the prompt is posted to
    the catch-all's endpoint, whatever its enabled flag.  A request whose
    prompt is absent or counts as false (the empty text, null, zero, an
    empty list or object) is answered 400 whatever the table holds and
    whatever project it names: no route is selected and nothing is
    posted. *)
Theorem trigger_ignores_enabled
    (router : WebhookRouter) (data : dict pyval) :
  (forall prompt,
      dict_get data "prompt" = Some prompt ->
      truthy prompt = true ->
      (forall project_name route,
          dict_get data "project" = Some (VStr project_name) ->
          project_name <> "" ->
          dict_get (routes router) project_name = Some route ->
          exists k,
            trigger_claude_manual router (VDict data)
            = Ok (Post (agentapi_url route ++ "/message") prompt k)
            /\ forall status_code text,
                k (HttpResponse status_code text)
                = Triggered (status_code =? 200)%nat (name route) text)
      /\ (forall catch_all,
             dict_get data "project" = None
             \/ (exists project_name,
                    dict_get data "project" = Some (VStr project_name)
                    /\ dict_get (routes router) project_name = None) ->
             catch_all_route router = Some catch_all ->
             exists k,
               trigger_claude_manual router (VDict data)
               = Ok (Post (agentapi_url catch_all ++ "/message") prompt k)
               /\ forall status_code text,
                   k (HttpResponse status_code text)
                   = Triggered (status_code =? 200)%nat (name catch_all) text))
  /\ (dict_get data "prompt" = None
      \/ (exists prompt, dict_get data "prompt" = Some prompt /\ truthy prompt = false) ->
      trigger_claude_manual router (VDict data) = Ok (Respond NoPrompt)
      /\ http_status NoPrompt = 400).
Proof.
  split.
  - intros prompt Hp Ht. split.
    + intros project_name route Hproj Hne Hroute.
      unfold trigger_claude_manual, trigger_claude_manual_body, py_get.
      rewrite Hp, Hproj. simpl. rewrite Ht. simpl.
      apply String.eqb_neq in Hne. rewrite Hne. simpl. rewrite Hroute.
      eexists. split; [reflexivity|]. reflexivity.
    + intros catch_all Hnamed Hc.
      unfold trigger_claude_manual, trigger_claude_manual_body, py_get.
      rewrite Hp. simpl.
      destruct Hnamed as [Hnone | (project_name & Hproj & Hroute)].
      * rewrite Hnone. simpl. rewrite Ht. simpl. rewrite Hc.
        eexists. split; [reflexivity|]. reflexivity.
      * rewrite Hproj. simpl. rewrite Ht. simpl.
        destruct (String.eqb project_name ""); simpl.
        -- rewrite Hc. eexists. split; [reflexivity|]. reflexivity.
        -- rewrite Hroute, Hc. eexists. split; [reflexivity|]. reflexivity.
  - intros Hno. split; [|reflexivity].
    unfold trigger_claude_manual, trigger_claude_manual_body, py_get.
    destruct Hno as [Hnone | (prompt & Hp & Hf)].
    + rewrite Hnone. reflexivity.
    + rewrite Hp. cbn [bind]. rewrite Hf. reflexivity.
Qed.

End Prompts.

(* ------------------------------------------------------------------ *)
(** ** The statements above on concrete tables, sources and payloads *)

Section Instances.
Import PyStr Py Config Router Handlers Spec Examples.

(** A wildcard route inserted before the exact route does not win. *)
Lemma exact_match_beats_wildcard_witness :
  enabled route_A = true
  /\ In "PROJ" (jira_projects route_A)
  /\ Forall (fun r => enabled r = false \/ ~ In "PROJ" (jira_projects r))
            (dict_values [("team-w", route_W)])
  /\ _match_pattern "PRO*" "PROJ" = Ok true
  /\ find_route_for_project
       (mkRouter ([("team-w", route_W)] ++ ("team-a", route_A) :: [("team-off", route_off)])%list
                 (Some main_catch_all)) "PROJ"
     = Ok (Some route_A).
Proof.
  assert (H1 : enabled route_A = true) by reflexivity.
  assert (H2 : In "PROJ" (jira_projects route_A)) by (simpl; auto).
  assert (H3 : Forall (fun r => enabled r = false \/ ~ In "PROJ" (jira_projects r))
                      (dict_values [("team-w", route_W)])).
  { constructor; [|constructor]. right. simpl. intros [H|[]]. discriminate H. }
  refine (conj H1 (conj H2 (conj H3 (conj eq_refl _)))).
  exact (exact_match_beats_wildcard [("team-w", route_W)] [("team-off", route_off)]
           "team-a" route_A (Some main_catch_all) "PROJ" H1 H2 H3).
Defined.

(** Two enabled routes hold the key PROJ exactly and a third matches it by
    wildcard: lookup returns the exact route that comes first, not the
    other one. *)
Lemma exact_match_tie_counterexample :
  let table :=
    mkRouter [("team-a2", route_A2); ("team-a", route_A); ("team-w", route_W)] None in
  enabled route_A = true
  /\ In "PROJ" (jira_projects route_A)
  /\ enabled route_W = true
  /\ In "PRO*" (jira_projects route_W)
  /\ _match_pattern "PRO*" "PROJ" = Ok true
  /\ find_route_for_project table "PROJ" = Ok (Some route_A2)
  /\ find_route_for_project table "PROJ" <> Ok (Some route_A).
Proof.
  cbv zeta. repeat split; try reflexivity; simpl; auto.
  discriminate.
Qed.

(** Reloading from a configuration whose second route is incomplete. *)
Lemma reload_swallows_load_failure_witness :
  load_config_body (Parsed broken_config) no_env (mkRouter [] None)
  = (Raise KeyError, mkRouter [("team-w", route_W)] None)
  /\ reload_config (Parsed broken_config) no_env served_table
     = (Ok tt,
        mkRouter [("team-w", route_W)]
          (Some (mkRoute "default" "claude-dev" default_agentapi_url ["*"] true))).
Proof.
  assert (H : load_config_body (Parsed broken_config) no_env (mkRouter [] None)
              = (Raise KeyError, mkRouter [("team-w", route_W)] None))
    by reflexivity.
  split; [exact H|].
  exact (reload_swallows_load_failure (Parsed broken_config) no_env served_table
           (mkRouter [("team-w", route_W)] None) KeyError H).
Defined.

(** The same reload: loading raises inside, reload returns normally, and
    the table that answers lookups afterwards is not the one from
    before. *)
Lemma reload_keeps_nothing_counterexample :
  (exists e partial,
      load_config_body (Parsed broken_config) no_env (mkRouter [] None)
      = (Raise e, partial))
  /\ fst (reload_config (Parsed broken_config) no_env served_table) = Ok tt
  /\ snd (reload_config (Parsed broken_config) no_env served_table) <> served_table
  /\ find_route_for_project served_table "PROJ" = Ok (Some route_A)
  /\ find_route_for_project
       (snd (reload_config (Parsed broken_config) no_env served_table)) "PROJ"
     = Ok (Some route_W).
Proof.
  split; [eexists; eexists; reflexivity|].
  repeat split; try reflexivity.
  discriminate.
Qed.

(** Start-up without a configuration file, and with an unreadable one. *)
Lemma load_falls_back_to_env_witness :
  (NoFile = NoFile \/ (exists e, NoFile = ReadFails e))
  /\ no_env "DEFAULT_AGENTAPI_URL" = None
  /\ init NoFile no_env
     = (Ok tt,
        mkRouter []
          (Some (mkRoute "default" "claude-dev" default_agentapi_url ["*"] true)))
  /\ (ReadFails OSError = NoFile \/ (exists e, ReadFails OSError = ReadFails e))
  /\ empty_url_env "DEFAULT_AGENTAPI_URL" = Some ""
  /\ init (ReadFails OSError) empty_url_env = (Ok tt, mkRouter [] None).
Proof.
  assert (H1 : NoFile = NoFile \/ (exists e, NoFile = ReadFails e))
    by (left; reflexivity).
  assert (H2 : ReadFails OSError = NoFile \/ (exists e, ReadFails OSError = ReadFails e))
    by (right; exists OSError; reflexivity).
  assert (E1 : no_env "DEFAULT_AGENTAPI_URL" = None) by reflexivity.
  assert (E2 : empty_url_env "DEFAULT_AGENTAPI_URL" = Some "") by reflexivity.
  refine (conj H1 (conj E1 (conj _ (conj H2 (conj E2 _))))).
  - exact (proj1 (proj2 (load_falls_back_to_env NoFile no_env H1)) E1).
  - exact (proj2 (proj2 (load_falls_back_to_env (ReadFails OSError) empty_url_env H2)) E2).
Defined.

(** Nothing about a default endpoint is set in the environment and there
    is no configuration file: a catch-all is stored all the same. *)
Lemma builtin_endpoint_counterexample :
  no_env "DEFAULT_AGENTAPI_URL" = None
  /\ fst (init NoFile no_env) = Ok tt
  /\ catch_all_route (snd (init NoFile no_env))
     = Some (mkRoute "default" "claude-dev"
               "http://claude-dev-env-service.claude-dev.svc.cluster.local:3284"
               ["*"] true)
  /\ catch_all_route (snd (init NoFile no_env)) <> None.
Proof. repeat split; try reflexivity. discriminate. Qed.

(** The key OFF is held by a disabled route only: the catch-all answers. *)
Lemma disabled_routes_invisible_witness :
  find_route_for_project guarded_table "OFF" = Ok (Some main_catch_all)
  /\ enabled main_catch_all = true
  /\ find_route_for_project switched_off_table "OFF" = Ok None.
Proof.
  assert (H : find_route_for_project guarded_table "OFF" = Ok (Some main_catch_all))
    by reflexivity.
  split; [exact H|]. split.
  - exact (proj1 (disabled_routes_invisible "OFF") guarded_table main_catch_all H).
  - reflexivity.
Defined.

Lemma catch_all_is_last_resort_witness :
  (forall r, In r (dict_values (routes guarded_table)) -> enabled r = true ->
             ~ In "OTHER" (jira_projects r)
             /\ forall p, In p (jira_projects r) -> _match_pattern p "OTHER" = Ok false)
  /\ find_route_for_project guarded_table "OTHER" = Ok (Some main_catch_all)
  /\ (forall r, In r (dict_values [("team-off", route_off)]) -> enabled r = false)
  /\ find_route_for_project (mkRouter [("team-off", route_off)] None) "OTHER" = Ok None.
Proof.
  assert (H1 : forall r, In r (dict_values (routes guarded_table)) -> enabled r = true ->
             ~ In "OTHER" (jira_projects r)
             /\ forall p, In p (jira_projects r) -> _match_pattern p "OTHER" = Ok false).
  { intros r [<- | [<- | []]] He.
    - split.
      + simpl. intros [H|[]]. discriminate H.
      + intros p [<- | []]. reflexivity.
    - discriminate He. }
  assert (H2 : forall r, In r (dict_values [("team-off", route_off)]) -> enabled r = false).
  { intros r [<- | []]. reflexivity. }
  split; [exact H1|]. split.
  - exact (proj1 (catch_all_is_last_resort guarded_table "OTHER") H1).
  - split; [exact H2|].
    exact (proj2 (catch_all_is_last_resort (mkRouter [("team-off", route_off)] None) "OTHER")
             H2 eq_refl).
Defined.

Lemma template_key_classifies_witness :
  contains_ci "updated" "JIRA:Issue_Updated (assigned)"
  /\ template_key_for "JIRA:Issue_Updated (assigned)" = "issue_updated"
  /\ ~ contains_ci "updated" "jira:issue_assigned"
  /\ contains_ci "assigned" "jira:issue_assigned"
  /\ template_key_for "jira:issue_assigned" = "issue_assigned"
  /\ ~ contains_ci "updated" "jira:issue_deleted"
  /\ ~ contains_ci "assigned" "jira:issue_deleted"
  /\ template_key_for "jira:issue_deleted" = "issue_created".
Proof.
  assert (U1 : contains_ci "updated" "JIRA:Issue_Updated (assigned)").
  { exists "JIRA:Issue_", "Updated", " (assigned)". split; reflexivity. }
  assert (U2 : ~ contains_ci "updated" "jira:issue_assigned").
  { rewrite contains_ci_iff. discriminate. }
  assert (A2 : contains_ci "assigned" "jira:issue_assigned").
  { exists "jira:issue_", "assigned", "". split; reflexivity. }
  assert (U3 : ~ contains_ci "updated" "jira:issue_deleted").
  { rewrite contains_ci_iff. discriminate. }
  assert (A3 : ~ contains_ci "assigned" "jira:issue_deleted").
  { rewrite contains_ci_iff. discriminate. }
  refine (conj U1 (conj _ (conj U2 (conj A2 (conj _ (conj U3 (conj A3 _))))))).
  - exact (proj1 (template_key_classifies "JIRA:Issue_Updated (assigned)") U1).
  - exact (proj1 (proj2 (template_key_classifies "jira:issue_assigned")) U2 A2).
  - exact (proj2 (proj2 (template_key_classifies "jira:issue_deleted")) U3 A3).
Defined.

Lemma changelog_rendering_witness :
  Forall2 represents
    [ VDict [ ("field", VStr "status"); ("fromString", VStr "Open");
              ("toString", VStr "Done") ];
      VDict [ ("field", VStr "assignee"); ("fromString", VNone) ] ]
    [ mkChange "status" (Some "Open") (Some "Done"); mkChange "assignee" None None ]
  /\ _extract_changelog (VDict changelog_payload)
     = Ok "- status: Open → Done
- assignee: None → None"
  /\ dict_get [("webhookEvent", VStr "jira:issue_updated")] "changelog" = None
  /\ _extract_changelog (VDict [("webhookEvent", VStr "jira:issue_updated")])
     = Ok "No specific changes detected".
Proof.
  assert (H : Forall2 represents
    [ VDict [ ("field", VStr "status"); ("fromString", VStr "Open");
              ("toString", VStr "Done") ];
      VDict [ ("field", VStr "assignee"); ("fromString", VNone) ] ]
    [ mkChange "status" (Some "Open") (Some "Done"); mkChange "assignee" None None ]).
  { constructor; [|constructor; [|constructor]].
    - eexists. split; [reflexivity|]. simpl. auto.
    - eexists. split; [reflexivity|]. simpl. auto. }
  split; [exact H|]. split.
  - exact (proj1 (changelog_rendering changelog_payload) _ _ _ eq_refl eq_refl H).
  - split; [reflexivity|].
    exact (proj1 (proj2 (changelog_rendering [("webhookEvent", VStr "jira:issue_updated")]))
             eq_refl).
Defined.

(** A manual trigger naming the disabled route team-off, one naming no
    route while the catch-all is disabled, and one naming the enabled route
    team-a with an empty prompt. *)
Lemma trigger_ignores_enabled_witness :
  enabled route_off = false
  /\ (exists k,
         trigger_claude_manual switched_off_table
           (VDict [("prompt", VStr "run the tests"); ("project", VStr "team-off")])
         = Ok (Post "http://off.example:3284/message" (VStr "run the tests") k)
         /\ forall status_code text,
             k (HttpResponse status_code text)
             = Triggered (status_code =? 200)%nat "team-off" text)
  /\ enabled (disable main_catch_all) = false
  /\ (exists k,
         trigger_claude_manual switched_off_table
           (VDict [("prompt", VStr "run the tests"); ("project", VStr "nobody")])
         = Ok (Post "http://main.example:3284/message" (VStr "run the tests") k)
         /\ forall status_code text,
             k (HttpResponse status_code text)
             = Triggered (status_code =? 200)%nat "main" text)
  /\ dict_get (routes guarded_table) "team-a" = Some route_A
  /\ trigger_claude_manual guarded_table
       (VDict [("prompt", VStr ""); ("project", VStr "team-a")])
     = Ok (Respond NoPrompt)
  /\ trigger_claude_manual guarded_table (VDict [("project", VStr "team-a")])
     = Ok (Respond NoPrompt).
Proof.
  refine (conj eq_refl (conj _ (conj eq_refl (conj _ (conj eq_refl (conj _ _)))))).
  - refine (proj1 (proj1 (trigger_ignores_enabled switched_off_table
                            [("prompt", VStr "run the tests"); ("project", VStr "team-off")])
                         (VStr "run the tests") eq_refl eq_refl)
                  "team-off" route_off eq_refl _ eq_refl).
    discriminate.
  - refine (proj2 (proj1 (trigger_ignores_enabled switched_off_table
                            [("prompt", VStr "run the tests"); ("project", VStr "nobody")])
                         (VStr "run the tests") eq_refl eq_refl)
                  (disable main_catch_all) _ eq_refl).
    right. exists "nobody". split; reflexivity.
  - refine (proj1 (proj2 (trigger_ignores_enabled guarded_table
                            [("prompt", VStr ""); ("project", VStr "team-a")]) _)).
    right. exists (VStr ""). split; reflexivity.
  - refine (proj1 (proj2 (trigger_ignores_enabled guarded_table
                            [("project", VStr "team-a")]) _)).
    left. reflexivity.
Defined.

(** A manual trigger that names the route team-a but carries an empty
    prompt, or none: it is answered 400 and nothing is posted to the
    route. *)
Lemma trigger_without_prompt_counterexample :
  dict_get (routes guarded_table) "team-a" = Some route_A
  /\ trigger_claude_manual guarded_table
       (VDict [("prompt", VStr ""); ("project", VStr "team-a")])
     = Ok (Respond NoPrompt)
  /\ trigger_claude_manual guarded_table (VDict [("project", VStr "team-a")])
     = Ok (Respond NoPrompt)
  /\ http_status NoPrompt = 400.
Proof. repeat split; reflexivity. Qed.

End Instances.

(* ------------------------------------------------------------------ *)
(** ** Further properties of route resolution *)

Section LookupMore.
Import PyStr Router Spec Describe.

Lemma exact_tier_none_inv (l : list ProjectRoute) (key : string) :
  exact_tier l key = None ->
  forall r, In r l -> enabled r = true -> ~ In key (jira_projects r).
Proof.
  induction l as [|x l IH]; simpl; intros H r Hr He; [contradiction|].
  destruct (enabled x) eqn:Ex; simpl in H.
  - destruct (in_list key (jira_projects x)) eqn:Ei; [discriminate|].
    destruct Hr as [<- | Hr]; [|exact (IH H r Hr He)].
    intros Hin. apply in_list_In in Hin. congruence.
  - destruct Hr as [<- | Hr]; [congruence | exact (IH H r Hr He)].
Qed.

Lemma any_pattern_false_inv (ps : list string) (key : string) :
  any_pattern ps key = Ok false ->
  forall p, In p ps -> _match_pattern p key = Ok false.
Proof.
  induction ps as [|q ps IH]; simpl; intros H p Hp; [contradiction|].
  destruct (_match_pattern q key) as [[|]| |] eqn:E; simpl in H; try discriminate.
  destruct Hp as [<- | Hp]; [exact E | exact (IH H p Hp)].
Qed.

Lemma pattern_tier_none_inv (l : list ProjectRoute) (key : string) :
  pattern_tier l key = Ok None ->
  forall r, In r l -> enabled r = true ->
  forall p, In p (jira_projects r) -> _match_pattern p key = Ok false.
Proof.
  induction l as [|x l IH]; simpl; intros H r Hr He; [contradiction|].
  destruct (enabled x) eqn:Ex; simpl in H.
  - destruct (any_pattern (jira_projects x) key) as [[|]| |] eqn:Ea;
      simpl in H; try discriminate.
    destruct Hr as [<- | Hr]; [|exact (IH H r Hr He)].
    apply any_pattern_false_inv. exact Ea.
  - destruct Hr as [<- | Hr]; [congruence | exact (IH H r Hr He)].
Qed.

(** X1.  Where the route returned by lookup comes from: it is enabled, and
    either it is a route of the table that holds the key exactly; or no
    enabled route holds the key exactly and it is a route of the table with
    a pattern that matches the key; or it is the catch-all, no enabled
    route holds the key exactly and every pattern of every enabled route
    fails to match. *)
Theorem lookup_result_provenance
    (self : WebhookRouter) (key : string) (r : ProjectRoute) :
  find_route_for_project self key = Ok (Some r) ->
  enabled r = true
  /\ ((In r (dict_values (routes self)) /\ In key (jira_projects r))
      \/ ((forall r', In r' (dict_values (routes self)) -> enabled r' = true ->
                      ~ In key (jira_projects r'))
          /\ ((In r (dict_values (routes self))
               /\ exists p, In p (jira_projects r) /\ _match_pattern p key = Ok true)
              \/ (catch_all_route self = Some r
                  /\ forall r', In r' (dict_values (routes self)) -> enabled r' = true ->
                                forall p, In p (jira_projects r') ->
                                          _match_pattern p key = Ok false)))).
Proof.
  intros H. split; [exact (find_route_enabled _ _ _ H)|].
  unfold find_route_for_project in H.
  destruct (exact_tier _ key) as [x|] eqn:E1.
  - injection H as <-. apply exact_tier_enabled in E1. left. tauto.
  - right. split; [exact (exact_tier_none_inv _ _ E1)|].
    destruct (pattern_tier _ key) as [[x|]| |] eqn:E2; simpl in H; try discriminate.
    + injection H as <-. apply pattern_tier_enabled in E2. left. tauto.
    + injection H as H. apply catch_all_tier_enabled in H. right.
      split; [tauto | exact (pattern_tier_none_inv _ _ E2)].
Qed.

(** X2.  An enabled route that lists the pattern [*] makes the catch-all
    unreachable: whatever lookup returns for whatever key is then a route
    of the table, never none and never by way of the catch-all tier. *)
Theorem star_route_shadows_catch_all
    (self : WebhookRouter) (key : string) (r : ProjectRoute)
    (answer : option ProjectRoute) :
  In r (dict_values (routes self)) ->
  enabled r = true ->
  In "*" (jira_projects r) ->
  find_route_for_project self key = Ok answer ->
  exists r', answer = Some r' /\ In r' (dict_values (routes self))
             /\ (exact_tier (dict_values (routes self)) key = Some r'
                 \/ pattern_tier (dict_values (routes self)) key = Ok (Some r')).
Proof.
  intros Hr He Hstar H. unfold find_route_for_project in H.
  destruct (exact_tier _ key) as [x|] eqn:E1.
  - injection H as <-. exists x. split; [reflexivity|].
    split; [apply exact_tier_enabled in E1; tauto | left; reflexivity].
  - destruct (pattern_tier _ key) as [[x|]| |] eqn:E2; simpl in H; try discriminate.
    + injection H as <-. exists x. split; [reflexivity|].
      split; [apply pattern_tier_enabled in E2; tauto | right; reflexivity].
    + pose proof (pattern_tier_none_inv _ _ E2 r Hr He "*" Hstar) as Hm.
      discriminate Hm.
Qed.

Lemma literal_is_plain_pattern (pattern : string) :
  literal_pattern pattern = true -> plain_pattern pattern = true.
Proof.
  induction pattern as [|c pattern IH]; [reflexivity|].
  intros H. apply andb_true_iff in H. destruct H as [Hc H].
  unfold plain_pattern. simpl. rewrite Hc, orb_true_r. exact (IH H).
Qed.

Lemma glob_spec_literal (pattern : string) :
  literal_pattern pattern = true ->
  forall key, glob_spec pattern key = String.eqb (lower pattern) (lower key).
Proof.
  induction pattern as [|c pattern IH]; intros H key.
  - destruct key; reflexivity.
  - apply andb_true_iff in H. destruct H as [Hc H].
    destruct (plain_char c Hc) as (Hs & Hq & _).
    cbn [glob_spec]. rewrite Hs. destruct key as [|d key]; [reflexivity|].
    rewrite Hq, (IH H). reflexivity.
Qed.

(** X3.  A pattern without wildcards (ASCII characters that mean nothing to
    the regular-expression engine) matches a key exactly when the two are
    equal up to the case of ASCII letters: the pattern tier repeats the
    exact tier without regard to case. *)
Theorem literal_pattern_ignores_case (pattern key : string) :
  literal_pattern pattern = true ->
  plain_key key = true ->
  _match_pattern pattern key = Ok (String.eqb (lower pattern) (lower key)).
Proof.
  intros Hp Hk.
  rewrite (_match_pattern_plain _ _ (literal_is_plain_pattern _ Hp) Hk).
  now rewrite (glob_spec_literal _ Hp).
Qed.

Lemma all_chars_app (f : ascii -> bool) (a b : string) :
  all_chars f (a ++ b) = all_chars f a && all_chars f b.
Proof.
  induction a as [|c a IH]; simpl; [reflexivity|].
  now rewrite IH, andb_assoc.
Qed.

Lemma star_app_newline (a : Re.atom) (f : string -> bool) (key : string) :
  (forall k, plain_key k = true -> f k = true -> f (k ++ String newline "") = true) ->
  plain_key key = true ->
  Re.star a f key = true ->
  Re.star a f (key ++ String newline "") = true.
Proof.
  intros Hf. induction key as [|c key IH]; intros Hk H.
  - cbn [Re.star] in H. rewrite orb_false_r in H.
    pose proof (Hf "" eq_refl H) as H'. cbn [append] in H'.
    cbn [append Re.star]. rewrite H'. reflexivity.
  - cbn [Re.star] in H. apply orb_true_iff in H.
    change (String c key ++ String newline "") with (String c (key ++ String newline "")).
    cbn [Re.star]. apply orb_true_iff. destruct H as [H | H].
    + left. exact (Hf _ Hk H).
    + right. apply andb_true_iff in H. destruct H as [Hc H].
      apply plain_key_cons in Hk. destruct Hk as (_ & _ & Hk).
      rewrite Hc. exact (IH Hk H).
Qed.

Lemma match_items_app_newline (items : list Re.item) :
  forall key, plain_key key = true ->
  Re.match_items items key = true ->
  Re.match_items items (key ++ String newline "") = true.
Proof.
  induction items as [|[a [|]] items IH]; intros key Hk H.
  - cbn [Re.match_items] in *. rewrite (at_end_plain _ Hk) in H.
    destruct key; [reflexivity | discriminate].
  - cbn [Re.match_items] in *. apply star_app_newline; assumption.
  - cbn [Re.match_items] in *. destruct key as [|c key]; [discriminate|].
    apply andb_true_iff in H. destruct H as [Hc H].
    apply plain_key_cons in Hk. destruct Hk as (_ & _ & Hk).
    change (String c key ++ String newline "") with (String c (key ++ String newline "")).
    cbn iota. rewrite Hc. exact (IH _ Hk H).
Qed.

(** X4.  A newline at the end of the key goes unnoticed.  For a pattern
    made only of [*], [?] and ASCII characters without a meaning in regular
    expressions: whenever the pattern matches a key of ASCII characters
    without a newline, it also matches that key followed by one newline
    (the closing dollar of the expression matches before a final newline),
    also where the pattern has no wildcard to take the newline up. *)
Theorem trailing_newline_still_matches (pattern key : string) :
  plain_pattern pattern = true ->
  plain_key key = true ->
  _match_pattern pattern key = Ok true ->
  _match_pattern pattern (key ++ String newline "") = Ok true.
Proof.
  intros Hp Hk. unfold _match_pattern.
  destruct (String.eqb pattern "*"); [reflexivity|].
  unfold Re.match_ignorecase.
  change (Re.compile ("^" ++ regex_of pattern ++ "$"))
    with (Re.parse_items (regex_of pattern ++ "$")).
  rewrite (parse_plain _ Hp).
  rewrite all_chars_app, (plain_key_ascii _ Hk). cbn [andb all_chars].
  change (is_ascii newline && true) with true. cbn iota.
  intros [= H]. now rewrite (match_items_app_newline _ _ Hk H).
Qed.

End LookupMore.

(* ------------------------------------------------------------------ *)
(** ** Further properties of loading *)

Section LoadingMore.
Import PyStr Py Config Router Describe Endpoints.

Lemma dict_get_set {V : Type} (d : dict V) (k k' : string) (v : V) :
  dict_get (dict_set d k v) k' = if String.eqb k' k then Some v else dict_get d k'.
Proof.
  induction d as [|[k0 v0] d IH]; simpl.
  - reflexivity.
  - destruct (String.eqb k k0) eqn:E; simpl.
    + apply String.eqb_eq in E. subst k0.
      destruct (String.eqb k' k); reflexivity.
    + rewrite IH. destruct (String.eqb k' k0) eqn:E'; [|reflexivity].
      apply String.eqb_eq in E'. subst k0.
      destruct (String.eqb k' k) eqn:E''; [|reflexivity].
      apply String.eqb_eq in E''. subst k'. rewrite String.eqb_refl in E. discriminate.
Qed.

Lemma dict_get_None_keys {V : Type} (d : dict V) (k : string) :
  dict_get d k = None <-> ~ In k (map fst d).
Proof.
  induction d as [|[k0 v0] d IH]; simpl.
  - tauto.
  - destruct (String.eqb k k0) eqn:E.
    + apply String.eqb_eq in E. subst. split; [discriminate | tauto].
    + apply String.eqb_neq in E. rewrite IH. split.
      * intros H [H'|H']; [congruence | tauto].
      * tauto.
Qed.

Lemma dict_set_keys {V : Type} (d : dict V) (k : string) (v : V) :
  map fst (dict_set d k v) =
  (map fst d ++ match dict_get d k with Some _ => [] | None => [k] end)%list.
Proof.
  induction d as [|[k0 v0] d IH]; simpl; [reflexivity|].
  destruct (String.eqb k k0) eqn:E; simpl.
  - now rewrite app_nil_r.
  - now rewrite IH.
Qed.

Lemma dict_set_entries {V : Type} (P : string * V -> Prop) (d : dict V) (k : string) (v : V) :
  Forall P d -> (forall k0, P (k0, v) \/ k0 <> k) -> P (k, v) -> Forall P (dict_set d k v).
Proof.
  intros Hd Hk Hkv. induction Hd as [|[k0 v0] d H0 Hd IH]; simpl.
  - constructor; [exact Hkv | constructor].
  - destruct (String.eqb k k0) eqn:E.
    + apply String.eqb_eq in E. subst k0. constructor; assumption.
    + constructor; assumption.
Qed.

Lemma well_keyed_set (table : dict ProjectRoute) (r : ProjectRoute) :
  well_keyed table -> well_keyed (dict_set table (name r) r).
Proof.
  intros [Hnd Hkeys]. split.
  - rewrite dict_set_keys. destruct (dict_get table (name r)) eqn:E.
    + now rewrite app_nil_r.
    + apply dict_get_None_keys in E.
      apply NoDup_app; [exact Hnd | repeat constructor; intros [] | ].
      intros x Hx [<- | []]. contradiction.
  - apply dict_set_entries; [exact Hkeys | | reflexivity].
    intros k0. destruct (String.eqb k0 (name r)) eqn:E.
    + apply String.eqb_eq in E. left. exact E.
    + apply String.eqb_neq in E. right. exact E.
Qed.

Lemma load_routes_well_keyed (items : list pyval) :
  forall self r self',
    load_routes items self = (r, self') ->
    well_keyed (routes self) -> well_keyed (routes self').
Proof.
  induction items as [|rc items IH]; simpl; intros self r self'.
  - intros [= _ <-]. auto.
  - unfold bindM, lift, set_route.
    destruct (route_of_config rc) as [route| |].
    + intros H Hw. apply IH in H; [exact H|]. simpl. now apply well_keyed_set.
    + intros [= _ <-]. auto.
    + intros [= _ <-]. auto.
Qed.

Lemma load_from_env_routes (env : Env) (self : WebhookRouter) :
  routes (snd (_load_from_env env self)) = routes self.
Proof. rewrite _load_from_env_result. reflexivity. Qed.

Lemma load_config_body_well_keyed (src : ConfigSource) (env : Env)
      (self self' : WebhookRouter) (r : res unit) :
  load_config_body src env self = (r, self') ->
  well_keyed (routes self) -> well_keyed (routes self').
Proof.
  destruct src as [|e0|config]; simpl.
  - intros H Hw. rewrite <- (load_from_env_routes env self) in Hw.
    now rewrite H in Hw.
  - unfold lift. intros [= _ <-]. auto.
  - unfold bindM, lift.
    destruct (rs <- py_get config "routes" (VList []);; py_iter rs) as [items| |];
      [| intros [= _ <-]; auto | intros [= _ <-]; auto].
    destruct (load_routes items self) as [[[]| |] self1] eqn:El;
      [| intros [= _ <-]; eapply load_routes_well_keyed; exact El
       | intros [= _ <-]; eapply load_routes_well_keyed; exact El].
    intros H Hw. pose proof (load_routes_well_keyed _ _ _ _ El Hw) as Hw1.
    destruct (py_get config "catch_all" VNone) as [cc| |];
      [| injection H as _ <-; exact Hw1 | injection H as _ <-; exact Hw1].
    destruct (truthy cc).
    + destruct (catch_all_of_config cc) as [route| |];
        injection H as _ <-; exact Hw1.
    + injection H as _ <-. exact Hw1.
Qed.

(** X5.  The table a start-up or a reload leaves behind, whatever the
    configuration source and whether or not loading it failed, has every
    route name once, each stored under the name of its route. *)
Theorem loaded_table_is_well_keyed (src : ConfigSource) (env : Env) (self : WebhookRouter) :
  well_keyed (routes (snd (init src env)))
  /\ well_keyed (routes (snd (Config.reload_config src env self))).
Proof.
  assert (main : well_keyed (routes (snd (load_config src env (mkRouter [] None))))).
  { unfold load_config, try_exceptM.
    destruct (load_config_body src env (mkRouter [] None)) as [r self'] eqn:E.
    assert (Hw : well_keyed (routes self')).
    { apply (load_config_body_well_keyed _ _ _ _ _ E). split; constructor. }
    destruct r; simpl; [exact Hw | | exact Hw].
    rewrite load_from_env_routes. exact Hw. }
  split; exact main.
Qed.

(** X6.  Reloading never raises, so the reload endpoint never answers 500:
    for every configuration source, broken ones included, its answer is the
    success answer, carrying the number of routes in the table as reloaded. *)
Theorem reload_endpoint_always_succeeds
    (src : ConfigSource) (env : Env) (self : WebhookRouter) :
  (forall e, fst (Config.reload_config src env self) <> Raise e)
  /\ forall answer self',
      reload_config_endpoint src env self = (Ok answer, self') ->
      answer = ReloadSucceeded (length (routes self'))
      /\ self' = snd (Config.reload_config src env self).
Proof.
  assert (H : forall e, fst (Config.reload_config src env self) <> Raise e).
  { intros e. unfold Config.reload_config, load_config, try_exceptM. simpl.
    destruct (load_config_body src env (mkRouter [] None)) as [[[]| |] self'];
      simpl; try discriminate.
    rewrite _load_from_env_result. discriminate. }
  split; [exact H|].
  intros answer self'. unfold reload_config_endpoint, try_exceptM, bindM.
  destruct (Config.reload_config src env self) as [[[]| e |] self1] eqn:E; simpl.
  - intros [= <- <-]. auto.
  - exfalso. apply (H e). reflexivity.
  - discriminate.
Qed.

Lemma load_routes_typed (items : list pyval) (rs : list ProjectRoute) :
  Forall2 (fun item r => route_of_config item = Ok r) items rs ->
  forall self,
    load_routes items self
    = (Ok tt, mkRouter (stored rs (routes self)) (catch_all_route self)).
Proof.
  induction 1 as [|item r items rs Hr _ IH]; intros self; simpl.
  - unfold ret. now rewrite router_eta.
  - unfold bindM, lift, set_route. rewrite Hr. rewrite IH. reflexivity.
Qed.

Lemma load_routes_stops (good : list pyval) (rs : list ProjectRoute)
      (bad : pyval) (rest : list pyval) (e : exn) :
  Forall2 (fun item r => route_of_config item = Ok r) good rs ->
  route_of_config bad = Raise e ->
  forall self,
    load_routes (good ++ bad :: rest)%list self
    = (Raise e, mkRouter (stored rs (routes self)) (catch_all_route self)).
Proof.
  intros Hgood Hbad. induction Hgood as [|item r items rs Hr _ IH]; intros self; simpl.
  - unfold bindM, lift. rewrite Hbad. now rewrite router_eta.
  - unfold bindM, lift, set_route. rewrite Hr. rewrite IH. reflexivity.
Qed.

Lemma find_app_last {A : Type} (f : A -> bool) (l : list A) (x : A) :
  find f (l ++ [x])%list =
  match find f l with
  | Some y => Some y
  | None => if f x then Some x else None
  end.
Proof.
  induction l as [|y l IH]; simpl; [reflexivity|].
  destruct (f y); [reflexivity | exact IH].
Qed.

Lemma stored_get (rs : list ProjectRoute) :
  forall table n,
    dict_get (stored rs table) n =
    match last_named n rs with
    | Some r => Some r
    | None => dict_get table n
    end.
Proof.
  unfold stored, last_named.
  induction rs as [|r rs IH]; intros table n; simpl; [reflexivity|].
  rewrite IH, find_app_last, dict_get_set.
  destruct (find _ (rev rs)); [reflexivity|].
  destruct (String.eqb n (name r)); reflexivity.
Qed.

(** X7.  A configuration whose route entries are all well formed loads as
    written, without looking at the environment: the table holds the routes
    in the order their names first occur, a name that occurs again keeps its
    place and takes the later entry (looking a name up gives the last entry
    of that name), and the catch-all is the configured one, with the single
    pattern [*], or none when the configuration has no catch-all entry. *)
Theorem well_formed_config_loads
    (config : dict pyval) (items : list pyval) (rs : list ProjectRoute)
    (catch_all : option ProjectRoute) (env : Env) :
  dict_get config "routes" = Some (VList items) ->
  Forall2 (fun item r => route_of_config item = Ok r) items rs ->
  (dict_get config "catch_all" = None /\ catch_all = None)
  \/ (exists cc c, dict_get config "catch_all" = Some cc
                   /\ catch_all_of_config cc = Ok c /\ catch_all = Some c) ->
  init (Parsed (VDict config)) env = (Ok tt, mkRouter (stored rs []) catch_all)
  /\ (forall n, dict_get (stored rs []) n = last_named n rs)
  /\ (forall c, catch_all = Some c -> jira_projects c = ["*"]).
Proof.
  intros Hroutes Hitems Hcatch.
  assert (Hc : forall c, catch_all = Some c -> jira_projects c = ["*"]).
  { intros c Hc. destruct Hcatch as [[_ ->] | (cc & c' & _ & Hcc & ->)];
      [discriminate|]. injection Hc as ->.
    unfold catch_all_of_config in Hcc.
    repeat match type of Hcc with
           | bind ?m _ = Ok _ => destruct m; simpl in Hcc; try discriminate Hcc
           end.
    injection Hcc as <-. reflexivity. }
  split; [|split; [|exact Hc]].
  - unfold init, load_config, try_exceptM, load_config_body, bindM, lift.
    unfold py_get at 1. rewrite Hroutes. cbn [bind py_iter].
    rewrite (load_routes_typed _ _ Hitems). cbn [routes catch_all_route].
    unfold py_get.
    destruct Hcatch as [[-> ->] | (cc & c & -> & Hcc & ->)].
    + reflexivity.
    + assert (Ht : truthy cc = true).
      { unfold catch_all_of_config, py_index in Hcc.
        destruct cc as [| | | | |d]; try discriminate Hcc.
        destruct d; [discriminate Hcc | reflexivity]. }
      rewrite Ht, Hcc. reflexivity.
  - intros n. rewrite stored_get. destruct (last_named n rs); reflexivity.
Qed.

(** X8.  One malformed route entry cuts the load short: the routes written
    before it are kept, the entries after it and the configured catch-all
    are never read, and the catch-all is the one built from the environment
    defaults. *)
Theorem bad_entry_truncates_load
    (config : dict pyval) (good : list pyval) (rs : list ProjectRoute)
    (bad : pyval) (rest : list pyval) (e : exn) (env : Env) :
  dict_get config "routes" = Some (VList (good ++ bad :: rest)%list) ->
  Forall2 (fun item r => route_of_config item = Ok r) good rs ->
  route_of_config bad = Raise e ->
  init (Parsed (VDict config)) env
  = (Ok tt, mkRouter (stored rs []) (env_catch_all env)).
Proof.
  intros Hroutes Hgood Hbad.
  unfold init, load_config, try_exceptM, load_config_body, bindM, lift.
  unfold py_get at 1. rewrite Hroutes. cbn [bind py_iter].
  rewrite (load_routes_stops _ _ _ _ _ Hgood Hbad).
  rewrite _load_from_env_result. unfold env_catch_all. reflexivity.
Qed.

(** X9.  Without a readable configuration file every project key is routed
    to the route built from the environment defaults; when the default
    endpoint is set to the empty string no key is routed at all. *)
Theorem unconfigured_router_routes_by_env
    (src : ConfigSource) (env : Env) (key : string) :
  src = NoFile \/ (exists e, src = ReadFails e) ->
  find_route_for_project (snd (init src env)) key = Ok (env_catch_all env).
Proof.
  intros Hsrc.
  assert (H : init src env = (Ok tt, mkRouter [] (env_catch_all env))).
  { unfold init, load_config, try_exceptM.
    destruct Hsrc as [-> | [e ->]]; simpl; rewrite _load_from_env_result; reflexivity. }
  rewrite H. unfold find_route_for_project, env_catch_all. simpl.
  destruct (String.eqb _ ""); reflexivity.
Qed.

End LoadingMore.

(* ------------------------------------------------------------------ *)
(** ** Further properties of the webhook handler *)

Section HandlerMore.
Import PyStr Py Config Router Handlers Describe.

Ltac step_bind H :=
  match type of H with
  | try_except (bind ?m _) _ = _ =>
      let E := fresh "E" in destruct m eqn:E; cbn [bind try_except] in H;
      try discriminate H
  | try_except (if ?b then _ else _) _ = _ =>
      let E := fresh "E" in destruct b eqn:E; cbn [bind try_except] in H;
      try discriminate H
  | try_except (match ?m with _ => _ end) _ = _ =>
      let E := fresh "E" in destruct m eqn:E; cbn [bind try_except] in H;
      try discriminate H
  end.

(** What the handler has done when it posts. *)
Lemma handle_post_inv (router : WebhookRouter) (env : Env) (data : pyval)
      (url : string) (content : pyval) (k : PostResult -> Response) :
  handle_jira_webhook router env data = Ok (Post url content k) ->
  exists route project_key ticket_key prompt,
    find_route_for_project router project_key = Ok (Some route)
    /\ url = agentapi_url route ++ "/message"
    /\ content = VStr prompt
    /\ k = (fun response =>
              match response with
              | HttpResponse status_code _ =>
                  if (status_code =? 200)%nat
                  then Routed (name route) ticket_key project_key
                  else AgentApiRejected status_code
              | RequestException detail => AgentApiUnreachable detail
              end).
Proof.
  unfold handle_jira_webhook, handle_jira_webhook_body. intros H.
  repeat step_bind H.
  injection H as <- <- <-.
  eexists. eexists. eexists. eexists.
  split; [eassumption|]. split; [reflexivity|]. split; reflexivity.
Qed.


(** X11.  After the post, only the status 200 counts as delivered: it is
    answered 200 with the route's name; every other status, other 2xx
    statuses included, is answered 500, and so is a request that failed to
    connect. *)
Theorem only_status_200_is_delivery
    (router : WebhookRouter) (env : Env) (data : pyval)
    (url : string) (content : pyval) (k : PostResult -> Response) :
  handle_jira_webhook router env data = Ok (Post url content k) ->
  (forall text, exists route ticket project,
        k (HttpResponse 200 text) = Routed route ticket project)
  /\ (forall status_code text,
         status_code <> 200 ->
         k (HttpResponse status_code text) = AgentApiRejected status_code
         /\ http_status (k (HttpResponse status_code text)) = 500)
  /\ (forall detail,
         k (RequestException detail) = AgentApiUnreachable detail
         /\ http_status (k (RequestException detail)) = 500).
Proof.
  intros H. destruct (handle_post_inv _ _ _ _ _ _ H)
    as (route & pk & tk & prompt & _ & _ & _ & ->).
  split; [|split].
  - intros text. eexists. eexists. eexists. reflexivity.
  - intros status_code text Hne. apply Nat.eqb_neq in Hne. rewrite Hne. auto.
  - intros detail. auto.
Qed.

(** X12.  A body that counts as false (null, the empty object, the empty
    list, zero, the empty text) is answered 400; an object without issue
    data, or whose issue counts as false, is answered 200 as ignored.  In
    neither case is a route looked up or anything posted, whatever the
    table. *)
Theorem payload_without_issue_is_not_routed
    (router : WebhookRouter) (env : Env) :
  (forall data, truthy data = false ->
                handle_jira_webhook router env data = Ok (Respond NoJsonData))
  /\ (forall d, d <> [] ->
                dict_get d "issue" = None
                \/ (exists v, dict_get d "issue" = Some v /\ truthy v = false) ->
                handle_jira_webhook router env (VDict d) = Ok (Respond IgnoredNoIssue)).
Proof.
  split.
  - intros data Hd. unfold handle_jira_webhook, handle_jira_webhook_body.
    rewrite Hd. reflexivity.
  - intros d Hne Hissue. unfold handle_jira_webhook, handle_jira_webhook_body, py_get.
    destruct d as [|kv d]; [contradiction|]. cbn [truthy negb bind].
    destruct Hissue as [-> | (v & -> & Hv)]; cbn [bind].
    + reflexivity.
    + rewrite Hv. reflexivity.
Qed.

(** X13.  When lookup finds no route for the project key of the payload
    (UNKNOWN when the payload has none), the webhook is answered 200 as
    ignored, naming that key; the event name and the optional ticket fields
    are not examined, so nothing in them can turn the answer into an
    error. *)
Theorem unrouted_project_is_ignored
    (router : WebhookRouter) (env : Env) (d : dict pyval)
    (issue fields project : pyval) (project_key : string) :
  dict_get d "issue" = Some issue ->
  truthy issue = true ->
  py_get issue "fields" (VDict []) = Ok fields ->
  py_get fields "project" (VDict []) = Ok project ->
  py_get project "key" (VStr "UNKNOWN") = Ok (VStr project_key) ->
  find_route_for_project router project_key = Ok None ->
  handle_jira_webhook router env (VDict d) = Ok (Respond (IgnoredNoRoute project_key)).
Proof.
  intros Hi Ht Hf Hp Hk Hr.
  unfold handle_jira_webhook, handle_jira_webhook_body.
  destruct d as [|kv d]; [discriminate|]. cbn [truthy negb].
  unfold py_get at 1 2. rewrite Hi. cbn [bind]. rewrite Ht. cbn [negb].
  rewrite Hf. cbn [bind]. rewrite Hp. cbn [bind]. rewrite Hk. cbn [bind].
  destruct issue as [| | | | |issue_d]; try discriminate Hf.
  cbn [py_get bind as_str]. rewrite Hr. reflexivity.
Qed.

(** X14.  With a route found, a priority that is present but not an object
    (null, a text, a number, a list) makes the handler answer 500, and so
    does such a status when the priority is readable, whatever the event:
    the status is read even for the events whose prompt has no status
    line. *)
Theorem non_object_priority_or_status_aborts
    (router : WebhookRouter) (env : Env) (d issue_d fields_d : dict pyval)
    (project : pyval) (project_key event : string) (route : ProjectRoute)
    (v : pyval) :
  py_get (VDict d) "webhookEvent" (VStr "") = Ok (VStr event) ->
  dict_get d "issue" = Some (VDict issue_d) ->
  dict_get issue_d "fields" = Some (VDict fields_d) ->
  py_get (VDict fields_d) "project" (VDict []) = Ok project ->
  py_get project "key" (VStr "UNKNOWN") = Ok (VStr project_key) ->
  find_route_for_project router project_key = Ok (Some route) ->
  is_object v = false ->
  dict_get fields_d "priority" = Some v
  \/ ((dict_get fields_d "priority" = None
       \/ exists pd, dict_get fields_d "priority" = Some (VDict pd))
      /\ dict_get fields_d "status" = Some v) ->
  handle_jira_webhook router env (VDict d) = Ok (Respond (InternalError AttributeError)).
Proof.
  intros He Hi Hf Hp Hk Hr Hv Hbad.
  unfold handle_jira_webhook, handle_jira_webhook_body.
  destruct d as [|kv d]; [discriminate|]. cbn [truthy negb].
  rewrite He. cbn [bind]. unfold py_get at 1. rewrite Hi. cbn [bind].
  destruct issue_d as [|kv' issue_d]; [discriminate|]. cbn [truthy negb].
  unfold py_get at 1. rewrite Hf. cbn [bind]. rewrite Hp. cbn [bind].
  rewrite Hk. cbn [bind py_get as_str]. rewrite Hr.
  unfold compose_prompt, ticket_info_of. cbn [bind py_get].
  destruct Hbad as [Hprio | [Hprio Hstatus]].
  - rewrite Hprio. destruct v; try discriminate Hv; reflexivity.
  - rewrite Hstatus.
    destruct Hprio as [-> | [pd ->]];
      destruct v; try discriminate Hv; reflexivity.
Qed.

Lemma extract_items_stop (good : list pyval) (changes : list Spec.Change)
      (bad : pyval) (rest : list pyval) :
  Forall2 Spec.represents good changes ->
  is_object bad = false ->
  changelog_lines (good ++ bad :: rest)%list = Raise AttributeError.
Proof.
  intros Hgood Hbad. induction Hgood as [|item c items cs Hr _ IH]; simpl.
  - unfold changelog_line. destruct bad; try discriminate Hbad; reflexivity.
  - rewrite (changelog_line_spec _ _ Hr). cbn [bind]. rewrite IH. reflexivity.
Qed.

(** X15.  Where changelog extraction raises: a changelog entry that is
    present but not an object (null included) raises AttributeError; an
    item list that is null, a boolean or a number raises TypeError; an item
    that is not an object raises AttributeError, also after items that
    were read. *)
Theorem malformed_changelog_raises (data : dict pyval) :
  (forall v, dict_get data "changelog" = Some v -> is_object v = false ->
             _extract_changelog (VDict data) = Raise AttributeError)
  /\ (forall changelog v,
         dict_get data "changelog" = Some (VDict changelog) ->
         dict_get changelog "items" = Some v ->
         v = VNone \/ (exists b, v = VBool b) \/ (exists z, v = VInt z) ->
         _extract_changelog (VDict data) = Raise TypeError)
  /\ (forall changelog good changes bad rest,
         dict_get data "changelog" = Some (VDict changelog) ->
         dict_get changelog "items" = Some (VList (good ++ bad :: rest)%list) ->
         Forall2 Spec.represents good changes ->
         is_object bad = false ->
         _extract_changelog (VDict data) = Raise AttributeError).
Proof.
  split; [|split].
  - intros v Hc Hv. unfold _extract_changelog, py_get at 1. rewrite Hc. cbn [bind].
    destruct v; try discriminate Hv; reflexivity.
  - intros changelog v Hc Hi Hv. unfold _extract_changelog, py_get. rewrite Hc.
    cbn [bind]. rewrite Hi. cbn [bind].
    destruct Hv as [-> | [[b ->] | [z ->]]]; reflexivity.
  - intros changelog good changes bad rest Hc Hi Hgood Hbad.
    unfold _extract_changelog, py_get. rewrite Hc. cbn [bind]. rewrite Hi.
    cbn [bind py_iter]. rewrite (extract_items_stop _ _ _ _ Hgood Hbad). reflexivity.
Qed.

(** X16.  A manual trigger with a prompt is answered 400 when the request
    names no route of the table and the table has no catch-all; it is
    answered 500, without falling back to the catch-all, when the project
    is given as a non-empty list or object. *)
Theorem trigger_without_usable_route
    (router : WebhookRouter) (data : dict pyval) (prompt : pyval) :
  dict_get data "prompt" = Some prompt ->
  truthy prompt = true ->
  (catch_all_route router = None ->
   dict_get data "project" = None
   \/ (exists project_name,
          dict_get data "project" = Some (VStr project_name)
          /\ dict_get (routes router) project_name = None) ->
   trigger_claude_manual router (VDict data) = Ok (Respond NoRouteAvailable))
  /\ (forall v, dict_get data "project" = Some v ->
                truthy v = true ->
                (exists l, v = VList l) \/ (exists o, v = VDict o) ->
                trigger_claude_manual router (VDict data)
                = Ok (Respond (InternalError TypeError))).
Proof.
  intros Hp Ht. split.
  - intros Hc Hnamed.
    unfold trigger_claude_manual, trigger_claude_manual_body, py_get.
    rewrite Hp. cbn [bind].
    destruct Hnamed as [-> | (project_name & -> & Hroute)]; cbn [bind];
      rewrite Ht; cbn [negb].
    + cbn. rewrite Hc. reflexivity.
    + destruct (truthy (VStr project_name)); cbn [bind routes_get];
        [rewrite Hroute|]; rewrite Hc; reflexivity.
  - intros v Hv Htv Hkind.
    unfold trigger_claude_manual, trigger_claude_manual_body, py_get.
    rewrite Hp, Hv. cbn [bind]. rewrite Ht, Htv. cbn [negb].
    destruct Hkind as [[l ->] | [o ->]]; reflexivity.
Qed.

End HandlerMore.

(* ------------------------------------------------------------------ *)
(** ** The rendered prompt *)

Section Rendering.
Import PyStr Py Config Router Handlers Describe.

Lemma get_text (d : dict pyval) (k default : string) :
  text_or_absent (dict_get d k) ->
  py_get (VDict d) k (VStr default) = Ok (VStr (entry_text (dict_get d k) default)).
Proof.
  unfold py_get. intros [-> | [s ->]]; reflexivity.
Qed.

Lemma get_nested (d : dict pyval) (k k2 default : string) :
  object_or_absent (dict_get d k) k2 ->
  (p <- py_get (VDict d) k (VDict []) ;; py_get p k2 (VStr default))
  = Ok (VStr (nested_text (dict_get d k) k2 default)).
Proof.
  unfold py_get. intros [-> | (o & -> & Ho)]; [reflexivity|].
  cbn [bind nested_text]. destruct Ho as [-> | [s ->]]; reflexivity.
Qed.

Lemma get_assignee (d : dict pyval) :
  readable_assignee (dict_get d "assignee") ->
  (a <- py_get (VDict d) "assignee" VNone ;;
   if truthy a then
     a <- py_get (VDict d) "assignee" (VDict []) ;;
     py_get a "displayName" (VStr "Unassigned")
   else Ok (VStr "Unassigned"))
  = Ok (VStr (nested_text (dict_get d "assignee") "displayName" "Unassigned")).
Proof.
  unfold py_get. intros [-> | [(v & -> & Hv) | (o & -> & Ho)]].
  - reflexivity.
  - cbn [bind]. rewrite Hv. destruct v as [| | | | |[|kv o]]; try reflexivity.
    discriminate Hv.
  - cbn [bind]. destruct (truthy (VDict o)) eqn:Ht.
    + cbn [nested_text]. destruct Ho as [-> | [s ->]]; reflexivity.
    + destruct o; [reflexivity | discriminate Ht].
Qed.

(** The three lines every prompt of a created or assigned ticket has. *)
Lemma created_prompt_block (tk pk s dsc p st a u c : string) :
  exists pre post,
    format "
New JIRA ticket created: {ticket_key}

Summary: {summary}
Description: {description}
Priority: {priority}
Assignee: {assignee}
Project: {project_key}

Please:
1. Analyze this ticket
2. Create a branch named 'feature/{ticket_key}'
3. Set up initial project structure if needed
4. Create a plan in CLAUDE.md for implementing this feature
5. Start working on the implementation

Ticket URL: {ticket_url}
"
      [ ("ticket_key", VStr tk); ("project_key", VStr pk); ("summary", VStr s);
        ("description", VStr dsc); ("priority", VStr p); ("status", VStr st);
        ("assignee", VStr a); ("ticket_url", VStr u); ("changelog", VStr c) ]
    = Ok (pre ++ ("Priority: " ++ p ++ "
Assignee: " ++ a ++ "
Project: " ++ pk ++ "
") ++ post).
Proof.
  exists ("
New JIRA ticket created: " ++ tk ++ "

Summary: " ++ s ++ "
Description: " ++ dsc ++ "
").
  eexists. rewrite !append_assoc. reflexivity.
Qed.

Lemma assigned_prompt_block (tk pk s dsc p st a u c : string) :
  exists pre post,
    format "
JIRA ticket assigned to you: {ticket_key}

Summary: {summary}
Description: {description}
Priority: {priority}
Assignee: {assignee}
Project: {project_key}

Please:
1. Review this newly assigned ticket
2. Create a branch named 'feature/{ticket_key}' if it doesn't exist
3. Create or update your implementation plan
4. Begin work on the ticket

Ticket URL: {ticket_url}
"
      [ ("ticket_key", VStr tk); ("project_key", VStr pk); ("summary", VStr s);
        ("description", VStr dsc); ("priority", VStr p); ("status", VStr st);
        ("assignee", VStr a); ("ticket_url", VStr u); ("changelog", VStr c) ]
    = Ok (pre ++ ("Priority: " ++ p ++ "
Assignee: " ++ a ++ "
Project: " ++ pk ++ "
") ++ post).
Proof.
  exists ("
JIRA ticket assigned to you: " ++ tk ++ "

Summary: " ++ s ++ "
Description: " ++ dsc ++ "
").
  eexists. rewrite !append_assoc. reflexivity.
Qed.

(** X17.  For an event other than an update, a payload whose optional
    fields are absent or of the expected shape is posted to the route found
    for its project key, and the prompt carries, one after the other, the
    priority line, the assignee line and the project line: the priority is
    the name of the priority object or None when there is none, the
    assignee is the display name or Unassigned when the assignee is absent,
    null or has no display name. *)
Theorem readable_fields_render_with_defaults
    (router : WebhookRouter) (env : Env) (d issue_d fields_d : dict pyval)
    (project : pyval) (project_key event : string) (route : ProjectRoute) :
  py_get (VDict d) "webhookEvent" (VStr "") = Ok (VStr event) ->
  str_in "updated" (lower event) = false ->
  dict_get d "issue" = Some (VDict issue_d) ->
  dict_get issue_d "fields" = Some (VDict fields_d) ->
  py_get (VDict fields_d) "project" (VDict []) = Ok project ->
  py_get project "key" (VStr "UNKNOWN") = Ok (VStr project_key) ->
  find_route_for_project router project_key = Ok (Some route) ->
  text_or_absent (dict_get issue_d "key") ->
  text_or_absent (dict_get fields_d "summary") ->
  text_or_absent (dict_get fields_d "description") ->
  object_or_absent (dict_get fields_d "priority") "name" ->
  object_or_absent (dict_get fields_d "status") "name" ->
  readable_assignee (dict_get fields_d "assignee") ->
  exists prompt k,
    handle_jira_webhook router env (VDict d)
    = Ok (Post (agentapi_url route ++ "/message") (VStr prompt) k)
    /\ str_in ("Priority: " ++ nested_text (dict_get fields_d "priority") "name" "None" ++ "
Assignee: " ++ nested_text (dict_get fields_d "assignee") "displayName" "Unassigned" ++ "
Project: " ++ project_key ++ "
") prompt = true.
Proof.
  intros He Hupd Hi Hf Hp Hk Hr Hkey Hsum Hdesc Hprio Hstatus Hassignee.
  unfold handle_jira_webhook, handle_jira_webhook_body.
  destruct d as [|kv d]; [discriminate|]. cbn [truthy negb].
  rewrite He. cbn [bind]. unfold py_get at 1. rewrite Hi. cbn [bind].
  destruct issue_d as [|kv' issue_d]; [discriminate|]. cbn [truthy negb].
  unfold py_get at 1. rewrite Hf. cbn [bind]. rewrite Hp. cbn [bind].
  rewrite Hk. cbn [bind]. rewrite (get_text _ "key" "UNKNOWN" Hkey).
  cbn [bind as_str]. rewrite Hr.
  unfold compose_prompt, ticket_info_of, template_key_for. cbn [bind].
  rewrite Hupd.
  rewrite (get_text _ "summary" "" Hsum). cbn [bind].
  rewrite (get_text _ "description" "" Hdesc). cbn [bind].
  rewrite (get_nested _ "priority" "name" "None" Hprio). cbn [bind].
  rewrite (get_nested _ "status" "name" "Unknown" Hstatus). cbn [bind].
  rewrite (get_assignee _ Hassignee). cbn [bind py_str].
  destruct (str_in "assigned" (lower event)).
  - destruct (assigned_prompt_block
                (entry_text (dict_get (kv' :: issue_d) "key") "UNKNOWN") project_key
                (entry_text (dict_get fields_d "summary") "")
                (entry_text (dict_get fields_d "description") "")
                (nested_text (dict_get fields_d "priority") "name" "None")
                (nested_text (dict_get fields_d "status") "name" "Unknown")
                (nested_text (dict_get fields_d "assignee") "displayName" "Unassigned")
                (getenv env "JIRA_BASE_URL" "https://your-jira.atlassian.net"
                   ++ "/browse/" ++ entry_text (dict_get (kv' :: issue_d) "key") "UNKNOWN")
                "") as (pre & post & Hfmt).
    change (dict_get CLAUDE_PROMPT_TEMPLATES "issue_assigned") with (Some "
JIRA ticket assigned to you: {ticket_key}

Summary: {summary}
Description: {description}
Priority: {priority}
Assignee: {assignee}
Project: {project_key}

Please:
1. Review this newly assigned ticket
2. Create a branch named 'feature/{ticket_key}' if it doesn't exist
3. Create or update your implementation plan
4. Begin work on the ticket

Ticket URL: {ticket_url}
").
    cbn [bind]. rewrite Hfmt. cbn [bind try_except].
    eexists. eexists. split; [reflexivity|].
    apply str_in_spec. exists pre, post. reflexivity.
  - destruct (created_prompt_block
                (entry_text (dict_get (kv' :: issue_d) "key") "UNKNOWN") project_key
                (entry_text (dict_get fields_d "summary") "")
                (entry_text (dict_get fields_d "description") "")
                (nested_text (dict_get fields_d "priority") "name" "None")
                (nested_text (dict_get fields_d "status") "name" "Unknown")
                (nested_text (dict_get fields_d "assignee") "displayName" "Unassigned")
                (getenv env "JIRA_BASE_URL" "https://your-jira.atlassian.net"
                   ++ "/browse/" ++ entry_text (dict_get (kv' :: issue_d) "key") "UNKNOWN")
                "") as (pre & post & Hfmt).
    change (dict_get CLAUDE_PROMPT_TEMPLATES "issue_created") with (Some "
New JIRA ticket created: {ticket_key}

Summary: {summary}
Description: {description}
Priority: {priority}
Assignee: {assignee}
Project: {project_key}

Please:
1. Analyze this ticket
2. Create a branch named 'feature/{ticket_key}'
3. Set up initial project structure if needed
4. Create a plan in CLAUDE.md for implementing this feature
5. Start working on the implementation

Ticket URL: {ticket_url}
").
    cbn [bind]. rewrite Hfmt. cbn [bind try_except].
    eexists. eexists. split; [reflexivity|].
    apply str_in_spec. exists pre, post. reflexivity.
Qed.

End Rendering.

(* ------------------------------------------------------------------ *)
(** ** The status and health endpoints *)

Section EndpointsMore.
Import PyStr Py Config Router Describe Endpoints.

Lemma status_of_routes_ext (get get' : string -> GetResult) (rs : list ProjectRoute) :
  (forall r, In r rs -> enabled r = true ->
             get (agentapi_url r ++ "/status") = get' (agentapi_url r ++ "/status")) ->
  forall info, status_of_routes get rs info = status_of_routes get' rs info.
Proof.
  induction rs as [|x rs IH]; intros H info; simpl; [reflexivity|].
  rewrite IH by (intros r Hr; apply H; right; exact Hr).
  destruct (enabled x) eqn:Ex; simpl; [|reflexivity].
  unfold probe. rewrite (H x (or_introl eq_refl) Ex). reflexivity.
Qed.

(** X18.  The status endpoint never contacts a disabled route: its answer
    depends on the outside world only through the status requests to the
    enabled routes of the table and to an enabled catch-all. *)
Theorem status_probes_enabled_routes_only
    (router : WebhookRouter) (get get' : string -> GetResult) :
  (forall r, In r (dict_values (routes router)) \/ catch_all_route router = Some r ->
             enabled r = true ->
             get (agentapi_url r ++ "/status") = get' (agentapi_url r ++ "/status")) ->
  claude_status router get = claude_status router get'.
Proof.
  intros H. unfold claude_status.
  rewrite (status_of_routes_ext get get') by (intros r Hr; apply H; left; exact Hr).
  destruct (catch_all_route router) as [c|]; [|reflexivity].
  destruct (enabled c) eqn:Ec; [|reflexivity].
  unfold probe. rewrite (H c (or_intror eq_refl) Ec). reflexivity.
Qed.

Lemma status_of_routes_other (get : string -> GetResult) (rs : list ProjectRoute) (n : string) :
  ~ In n (map name rs) ->
  forall info, dict_get (status_of_routes get rs info) n = dict_get info n.
Proof.
  induction rs as [|x rs IH]; intros Hn info; simpl; [reflexivity|].
  simpl in Hn. rewrite IH by tauto. rewrite dict_get_set.
  destruct (String.eqb n (name x)) eqn:E; [|reflexivity].
  apply String.eqb_eq in E. subst. tauto.
Qed.

Lemma status_of_routes_entry (get : string -> GetResult) (rs : list ProjectRoute) :
  NoDup (map name rs) ->
  forall r info, In r rs ->
    dict_get (status_of_routes get rs info) (name r)
    = Some (if negb (enabled r) then StatusDisabled else probe get r).
Proof.
  induction rs as [|x rs IH]; intros Hnd r info Hr; [contradiction|].
  simpl in Hnd. apply NoDup_cons_iff in Hnd. destruct Hnd as [Hx Hnd]. simpl.
  destruct Hr as [<- | Hr].
  - rewrite (status_of_routes_other _ _ _ Hx), dict_get_set, String.eqb_refl.
    reflexivity.
  - exact (IH Hnd r _ Hr).
Qed.

Lemma well_keyed_names (table : dict ProjectRoute) :
  well_keyed table -> map name (dict_values table) = map fst table.
Proof.
  intros [_ H]. unfold dict_values. rewrite map_map.
  induction H as [|kv table Hkv _ IH]; simpl; [reflexivity|].
  now rewrite IH, Hkv.
Qed.

(** X19.  On a table in which every name occurs once, stored under the
    name of its route, the status answer has an entry for every route under
    its name: disabled for a disabled route, the outcome of its status
    request for an enabled one; only a route called catch_all can lose its
    entry, to an enabled catch-all, which is always reported under that
    name. *)
Theorem status_reports_every_route
    (router : WebhookRouter) (get : string -> GetResult) :
  well_keyed (routes router) ->
  (forall r, In r (dict_values (routes router)) ->
             name r <> "catch_all" ->
             dict_get (claude_status router get) (name r)
             = Some (if negb (enabled r) then StatusDisabled else probe get r))
  /\ (forall c, catch_all_route router = Some c -> enabled c = true ->
                dict_get (claude_status router get) "catch_all" = Some (probe get c)).
Proof.
  intros Hw. split.
  - intros r Hr Hname.
    assert (Hnd : NoDup (map name (dict_values (routes router))))
      by (rewrite (well_keyed_names _ Hw); exact (proj1 Hw)).
    pose proof (status_of_routes_entry get _ Hnd r [] Hr) as H.
    unfold claude_status. destruct (catch_all_route router) as [c|]; [|exact H].
    destruct (enabled c); [|exact H].
    rewrite dict_get_set. apply String.eqb_neq in Hname. rewrite Hname. exact H.
  - intros c Hc He. unfold claude_status. rewrite Hc, He, dict_get_set.
    reflexivity.
Qed.

Lemma stored_keys (rs : list ProjectRoute) :
  forall table n,
    In n (map fst (stored rs table)) <-> In n (map fst table) \/ In n (map name rs).
Proof.
  unfold stored. induction rs as [|r rs IH]; intros table n; simpl; [tauto|].
  rewrite IH, dict_set_keys, in_app_iff.
  destruct (dict_get table (name r)) eqn:E; simpl.
  - split; [tauto|]. intros [H | [<- | H]]; auto.
    left. left. destruct (in_dec string_dec (name r) (map fst table)) as [Hin|Hin];
      [exact Hin|]. apply dict_get_None_keys in Hin. congruence.
  - tauto.
Qed.

Lemma stored_well_keyed (rs : list ProjectRoute) :
  forall table, well_keyed table -> well_keyed (stored rs table).
Proof.
  unfold stored. induction rs as [|r rs IH]; intros table Hw; simpl; [exact Hw|].
  apply IH, well_keyed_set, Hw.
Qed.

(** X20.  After a configuration of well-formed route entries has been
    loaded, the health endpoint reports as loaded the number of distinct
    route names, which is at most the number of entries: entries that
    repeat a name are not counted again. *)
Theorem health_counts_distinct_names
    (config : dict pyval) (items : list pyval) (rs : list ProjectRoute)
    (env : Env) (e : res unit) (router : WebhookRouter) :
  dict_get config "routes" = Some (VList items) ->
  Forall2 (fun item r => route_of_config item = Ok r) items rs ->
  init (Parsed (VDict config)) env = (e, router) ->
  routes_loaded (health_check router)
  = length (nodup string_dec (map name rs))
  /\ routes_loaded (health_check router) <= length items.
Proof.
  intros Hroutes Hitems Hinit.
  assert (Hr : routes router = stored rs []).
  { unfold init, load_config, try_exceptM, load_config_body, bindM, lift in Hinit.
    unfold py_get at 1 in Hinit. rewrite Hroutes in Hinit. cbn [bind py_iter] in Hinit.
    rewrite (load_routes_typed _ _ Hitems) in Hinit.
    cbn [routes catch_all_route] in Hinit.
    destruct (py_get (VDict config) "catch_all" VNone) as [cc| |].
    - destruct (truthy cc).
      + destruct (catch_all_of_config cc) as [c| |]; cbn in Hinit.
        * injection Hinit as _ <-. reflexivity.
        * rewrite _load_from_env_result in Hinit. injection Hinit as _ <-. reflexivity.
        * injection Hinit as _ <-. reflexivity.
      + injection Hinit as _ <-. reflexivity.
    - rewrite _load_from_env_result in Hinit. injection Hinit as _ <-. reflexivity.
    - injection Hinit as _ <-. reflexivity. }
  assert (Hkeys : forall n, In n (map fst (stored rs [])) <-> In n (nodup string_dec (map name rs))).
  { intros n. rewrite stored_keys, nodup_In. simpl. tauto. }
  assert (Hnd : NoDup (map fst (stored rs []))).
  { apply (stored_well_keyed rs []). split; constructor. }
  assert (Hlen : length (stored rs []) = length (nodup string_dec (map name rs))).
  { rewrite <- (length_map fst (stored rs [])). apply Nat.le_antisymm.
    - apply NoDup_incl_length; [exact Hnd|]. intros n Hn. apply Hkeys, Hn.
    - apply NoDup_incl_length; [apply NoDup_nodup|]. intros n Hn. apply Hkeys, Hn. }
  unfold health_check. cbn [routes_loaded]. rewrite Hr, Hlen. split; [reflexivity|].
  rewrite (Forall2_length Hitems), <- (length_map name rs).
  apply NoDup_incl_length; [apply NoDup_nodup|].
  intros n Hn. apply nodup_In in Hn. exact Hn.
Qed.

End EndpointsMore.

(* ------------------------------------------------------------------ *)
(** ** The single-endpoint handler *)

Section MinimalMore.
Import PyStr Py Config.

(** X21.  The single-endpoint handler acts on one event name only: a
    payload whose event is anything but the text jira:issue_created, in
    that spelling and case, or that has no event, is answered as ignored
    and nothing is posted. *)
Theorem minimal_handler_ignores_other_events (env : Env) (d : dict pyval) :
  dict_get d "webhookEvent" <> Some (VStr "jira:issue_created") ->
  Minimal.handle_jira_webhook env (VDict d) = Ok (Minimal.Respond Minimal.NotCreation).
Proof.
  intros H. unfold Minimal.handle_jira_webhook, Minimal.handle_jira_webhook_body, py_get.
  cbn [bind].
  destruct (dict_get d "webhookEvent") as [v|]; [|reflexivity].
  assert (E : Minimal.eq_str v "jira:issue_created" = false).
  { destruct v; try reflexivity. simpl.
    destruct (String.eqb s "jira:issue_created") eqn:E; [|reflexivity].
    apply String.eqb_eq in E. subst. contradiction. }
  rewrite E. reflexivity.
Qed.

(** X22.  The single-endpoint handler does not ask for issue data: a
    creation event without an issue is still posted to the one endpoint,
    as a prompt about the ticket None whose URL ends in /browse/None. *)
Theorem minimal_handler_posts_without_issue (env : Env) (d : dict pyval) :
  dict_get d "webhookEvent" = Some (VStr "jira:issue_created") ->
  dict_get d "issue" = None ->
  exists prompt k,
    Minimal.handle_jira_webhook env (VDict d)
    = Ok (Minimal.Post (Minimal.AGENTAPI_URL env ++ "/message") (VStr prompt) k)
    /\ str_in "New JIRA ticket created: None" prompt = true
    /\ str_in ("Ticket URL: " ++ Minimal.getenv_str env "JIRA_BASE_URL" ++ "/browse/None")
              prompt = true.
Proof.
  intros He Hi.
  unfold Minimal.handle_jira_webhook, Minimal.handle_jira_webhook_body, py_get.
  rewrite He, Hi. cbn [bind Minimal.eq_str]. 
  change (String.eqb "jira:issue_created" "jira:issue_created") with true.
  cbn iota. cbn [dict_get bind truthy py_str].
  eexists. eexists. split; [reflexivity|]. split.
  - apply str_in_spec. exists "
". eexists. reflexivity.
  - apply str_in_spec. exists "
New JIRA ticket created: None

Summary: 
Description: 
Priority: None
Assignee: Unassigned

Please:
1. Analyze this ticket
2. Create a branch named 'feature/None'
3. Set up initial project structure if needed
4. Create a plan in CLAUDE.md for implementing this feature
5. Start working on the implementation

". eexists. rewrite !append_assoc. reflexivity.
Qed.

End MinimalMore.

(* ------------------------------------------------------------------ *)
(** ** The further properties on concrete inputs *)

Section MoreInstances.
Import PyStr Py Config Router Handlers Spec Describe Endpoints Examples Samples.

Lemma lookup_result_provenance_witness :
  find_route_for_project guarded_table "PROJ" = Ok (Some route_A)
  /\ enabled route_A = true
  /\ In "PROJ" (jira_projects route_A).
Proof.
  assert (H : find_route_for_project guarded_table "PROJ" = Ok (Some route_A))
    by reflexivity.
  destruct (lookup_result_provenance guarded_table "PROJ" route_A H) as [He _].
  refine (conj H (conj He _)). simpl. auto.
Defined.

Lemma star_route_shadows_catch_all_witness :
  In route_star (dict_values [("team-a", route_A); ("team-star", route_star)])
  /\ enabled route_star = true
  /\ In "*" (jira_projects route_star)
  /\ find_route_for_project
       (mkRouter [("team-a", route_A); ("team-star", route_star)] (Some main_catch_all))
       "ANYTHING" = Ok (Some route_star)
  /\ exists r', Some route_star = Some r'
                /\ In r' (dict_values [("team-a", route_A); ("team-star", route_star)]).
Proof.
  assert (H1 : In route_star (dict_values [("team-a", route_A); ("team-star", route_star)]))
    by (simpl; auto).
  assert (H2 : In "*" (jira_projects route_star)) by (simpl; auto).
  assert (H3 : find_route_for_project
       (mkRouter [("team-a", route_A); ("team-star", route_star)] (Some main_catch_all))
       "ANYTHING" = Ok (Some route_star)) by reflexivity.
  refine (conj H1 (conj eq_refl (conj H2 (conj H3 _)))).
  destruct (star_route_shadows_catch_all
              (mkRouter [("team-a", route_A); ("team-star", route_star)] (Some main_catch_all))
              "ANYTHING" route_star (Some route_star) H1 eq_refl H2 H3)
    as (r' & Hr' & Hin & _).
  exists r'. auto.
Defined.

Lemma literal_pattern_ignores_case_witness :
  literal_pattern "Proj-7" = true
  /\ plain_key "PROJ-7" = true
  /\ _match_pattern "Proj-7" "PROJ-7" = Ok true.
Proof.
  refine (conj eq_refl (conj eq_refl _)).
  exact (literal_pattern_ignores_case "Proj-7" "PROJ-7" eq_refl eq_refl).
Defined.

Lemma trailing_newline_still_matches_witness :
  plain_pattern "PROJ-7" = true
  /\ plain_key "PROJ-7" = true
  /\ _match_pattern "PROJ-7" "PROJ-7" = Ok true
  /\ glob_spec "PROJ-7" ("PROJ-7" ++ String newline "") = false
  /\ _match_pattern "PROJ-7" ("PROJ-7" ++ String newline "") = Ok true.
Proof.
  refine (conj eq_refl (conj eq_refl (conj eq_refl (conj eq_refl _)))).
  exact (trailing_newline_still_matches "PROJ-7" "PROJ-7" eq_refl eq_refl eq_refl).
Defined.

Lemma reload_endpoint_always_succeeds_witness :
  exists answer self',
    reload_config_endpoint (Parsed (VDict truncated_config)) no_env served_table
    = (Ok answer, self')
    /\ answer = ReloadSucceeded 1
    /\ answer = ReloadSucceeded (length (routes self')).
Proof.
  eexists. eexists. split; [reflexivity|]. split; [reflexivity|].
  exact (proj1 (proj2 (reload_endpoint_always_succeeds
                         (Parsed (VDict truncated_config)) no_env served_table)
                      _ _ eq_refl)).
Defined.

Lemma well_formed_config_loads_witness :
  dict_get repeating_config "routes"
  = Some (VList [entry_of route_A; entry_of route_W; entry_of route_A_moved])
  /\ Forall2 (fun item r => route_of_config item = Ok r)
             [entry_of route_A; entry_of route_W; entry_of route_A_moved]
             [route_A; route_W; route_A_moved]
  /\ init (Parsed (VDict repeating_config)) empty_url_env
     = (Ok tt, mkRouter [("team-a", route_A_moved); ("team-w", route_W)] None).
Proof.
  assert (H : Forall2 (fun item r => route_of_config item = Ok r)
             [entry_of route_A; entry_of route_W; entry_of route_A_moved]
             [route_A; route_W; route_A_moved])
    by (repeat constructor).
  refine (conj eq_refl (conj H _)).
  exact (proj1 (well_formed_config_loads repeating_config _ _ None empty_url_env
                  eq_refl H (or_introl (conj eq_refl eq_refl)))).
Defined.

Lemma bad_entry_truncates_load_witness :
  Forall2 (fun item r => route_of_config item = Ok r) [entry_of route_W] [route_W]
  /\ route_of_config (VDict [("name", VStr "team-x"); ("namespace", VStr "ns-x")])
     = Raise KeyError
  /\ init (Parsed (VDict truncated_config)) no_env
     = (Ok tt,
        mkRouter [("team-w", route_W)]
          (Some (mkRoute "default" "claude-dev" default_agentapi_url ["*"] true))).
Proof.
  assert (H : Forall2 (fun item r => route_of_config item = Ok r)
                      [entry_of route_W] [route_W])
    by (repeat constructor).
  refine (conj H (conj eq_refl _)).
  exact (bad_entry_truncates_load truncated_config [entry_of route_W] [route_W]
           (VDict [("name", VStr "team-x"); ("namespace", VStr "ns-x")])
           [entry_of route_A] KeyError no_env eq_refl H eq_refl).
Defined.

Lemma unconfigured_router_routes_by_env_witness :
  (ReadFails YAMLError = NoFile \/ exists e, ReadFails YAMLError = ReadFails e)
  /\ find_route_for_project (snd (init (ReadFails YAMLError) no_env)) "ANY-1"
     = Ok (Some (mkRoute "default" "claude-dev" default_agentapi_url ["*"] true))
  /\ find_route_for_project (snd (init (ReadFails YAMLError) empty_url_env)) "ANY-1"
     = Ok None.
Proof.
  assert (H : ReadFails YAMLError = NoFile \/ exists e, ReadFails YAMLError = ReadFails e)
    by (right; exists YAMLError; reflexivity).
  refine (conj H (conj _ _)).
  - exact (unconfigured_router_routes_by_env (ReadFails YAMLError) no_env "ANY-1" H).
  - exact (unconfigured_router_routes_by_env (ReadFails YAMLError) empty_url_env "ANY-1" H).
Defined.


Lemma only_status_200_is_delivery_witness :
  exists url content k,
    handle_jira_webhook guarded_table no_env (VDict (payload "jira:issue_created" "PROJ" []))
    = Ok (Post url content k)
    /\ k (HttpResponse 200 "ok") = Routed "team-a" (VStr "PROJ-1") "PROJ"
    /\ k (HttpResponse 204 "") = AgentApiRejected 204
    /\ http_status (k (HttpResponse 204 "")) = 500.
Proof.
  eexists. eexists. eexists. split; [reflexivity|]. split; [reflexivity|].
  refine (proj1 (proj2 (only_status_200_is_delivery guarded_table no_env
                          (VDict (payload "jira:issue_created" "PROJ" [])) _ _ _ eq_refl))
                204 "" _).
  discriminate.
Defined.

Lemma payload_without_issue_is_not_routed_witness :
  truthy (VDict []) = false
  /\ handle_jira_webhook guarded_table no_env (VDict []) = Ok (Respond NoJsonData)
  /\ handle_jira_webhook guarded_table no_env
       (VDict [("webhookEvent", VStr "jira:issue_created"); ("issue", VNone)])
     = Ok (Respond IgnoredNoIssue).
Proof.
  refine (conj eq_refl (conj _ _)).
  - exact (proj1 (payload_without_issue_is_not_routed guarded_table no_env)
             (VDict []) eq_refl).
  - refine (proj2 (payload_without_issue_is_not_routed guarded_table no_env)
              [("webhookEvent", VStr "jira:issue_created"); ("issue", VNone)] _ _).
    + discriminate.
    + right. exists VNone. split; reflexivity.
Defined.

Lemma unrouted_project_is_ignored_witness :
  find_route_for_project no_catch_all "OTHER" = Ok None
  /\ handle_jira_webhook no_catch_all no_env
       (VDict (payload "jira:issue_updated" "OTHER" [("priority", VNone)]))
     = Ok (Respond (IgnoredNoRoute "OTHER")).
Proof.
  refine (conj eq_refl _).
  exact (unrouted_project_is_ignored no_catch_all no_env
           (payload "jira:issue_updated" "OTHER" [("priority", VNone)])
           (VDict (issue_entries "OTHER" [("priority", VNone)]))
           (VDict (("project", VDict [("key", VStr "OTHER")])
                   :: ("summary", VStr "Fix bug") :: [("priority", VNone)]))
           (VDict [("key", VStr "OTHER")]) "OTHER"
           eq_refl eq_refl eq_refl eq_refl eq_refl eq_refl).
Defined.

Lemma non_object_priority_or_status_aborts_witness :
  is_object (VStr "High") = false
  /\ handle_jira_webhook only_catch_all no_env
       (VDict (payload "jira:issue_created" "PROJ" [("status", VStr "High")]))
     = Ok (Respond (InternalError AttributeError)).
Proof.
  refine (conj eq_refl _).
  refine (non_object_priority_or_status_aborts only_catch_all no_env
            (payload "jira:issue_created" "PROJ" [("status", VStr "High")])
            (issue_entries "PROJ" [("status", VStr "High")])
            (("project", VDict [("key", VStr "PROJ")])
             :: ("summary", VStr "Fix bug") :: [("status", VStr "High")])
            (VDict [("key", VStr "PROJ")]) "PROJ" "jira:issue_created" main_catch_all
            (VStr "High") eq_refl eq_refl eq_refl eq_refl eq_refl eq_refl eq_refl _).
  right. split; [left; reflexivity | reflexivity].
Defined.

Lemma malformed_changelog_raises_witness :
  is_object VNone = false
  /\ _extract_changelog (VDict [("changelog", VNone)]) = Raise AttributeError
  /\ _extract_changelog (VDict [("changelog", VDict [("items", VNone)])])
     = Raise TypeError.
Proof.
  refine (conj eq_refl (conj _ _)).
  - exact (proj1 (malformed_changelog_raises [("changelog", VNone)])
             VNone eq_refl eq_refl).
  - exact (proj1 (proj2 (malformed_changelog_raises
                           [("changelog", VDict [("items", VNone)])]))
             [("items", VNone)] VNone eq_refl eq_refl (or_introl eq_refl)).
Defined.

Lemma trigger_without_usable_route_witness :
  catch_all_route no_catch_all = None
  /\ trigger_claude_manual no_catch_all
       (VDict [("prompt", VStr "run the tests"); ("project", VStr "team-b")])
     = Ok (Respond NoRouteAvailable)
  /\ trigger_claude_manual guarded_table
       (VDict [("prompt", VStr "run the tests"); ("project", VList [VStr "team-a"])])
     = Ok (Respond (InternalError TypeError)).
Proof.
  refine (conj eq_refl (conj _ _)).
  - refine (proj1 (trigger_without_usable_route no_catch_all
                     [("prompt", VStr "run the tests"); ("project", VStr "team-b")]
                     (VStr "run the tests") eq_refl eq_refl) eq_refl _).
    right. exists "team-b". split; reflexivity.
  - refine (proj2 (trigger_without_usable_route guarded_table
                     [("prompt", VStr "run the tests"); ("project", VList [VStr "team-a"])]
                     (VStr "run the tests") eq_refl eq_refl)
                  (VList [VStr "team-a"]) eq_refl eq_refl _).
    left. exists [VStr "team-a"]. reflexivity.
Defined.

Lemma readable_fields_render_with_defaults_witness :
  exists prompt k,
    handle_jira_webhook only_catch_all no_env
      (VDict (payload "jira:issue_created" "PROJ"
                [("priority", VDict [("name", VStr "High")]); ("assignee", VNone)]))
    = Ok (Post "http://main.example:3284/message" (VStr prompt) k)
    /\ str_in "Priority: High
Assignee: Unassigned
Project: PROJ
" prompt = true.
Proof.
  refine (readable_fields_render_with_defaults only_catch_all no_env
            (payload "jira:issue_created" "PROJ"
               [("priority", VDict [("name", VStr "High")]); ("assignee", VNone)])
            (issue_entries "PROJ"
               [("priority", VDict [("name", VStr "High")]); ("assignee", VNone)])
            (("project", VDict [("key", VStr "PROJ")])
             :: ("summary", VStr "Fix bug")
             :: [("priority", VDict [("name", VStr "High")]); ("assignee", VNone)])
            (VDict [("key", VStr "PROJ")]) "PROJ" "jira:issue_created" main_catch_all
            eq_refl eq_refl eq_refl eq_refl eq_refl eq_refl eq_refl _ _ _ _ _ _).
  - right. exists "PROJ-1". reflexivity.
  - right. exists "Fix bug". reflexivity.
  - left. reflexivity.
  - right. exists [("name", VStr "High")]. split; [reflexivity|].
    right. exists "High". reflexivity.
  - left. reflexivity.
  - right. left. exists VNone. split; reflexivity.
Defined.

Lemma status_probes_enabled_routes_only_witness :
  (forall r, In r (dict_values (routes guarded_table))
             \/ catch_all_route guarded_table = Some r ->
             enabled r = true ->
             all_up (agentapi_url r ++ "/status") = off_is_down (agentapi_url r ++ "/status"))
  /\ claude_status guarded_table all_up = claude_status guarded_table off_is_down.
Proof.
  assert (H : forall r, In r (dict_values (routes guarded_table))
             \/ catch_all_route guarded_table = Some r ->
             enabled r = true ->
             all_up (agentapi_url r ++ "/status") = off_is_down (agentapi_url r ++ "/status")).
  { intros r [[<- | [<- | []]] | [= <-]] He; try reflexivity. discriminate He. }
  exact (conj H (status_probes_enabled_routes_only guarded_table all_up off_is_down H)).
Defined.

Lemma status_reports_every_route_witness :
  well_keyed (routes guarded_table)
  /\ dict_get (claude_status guarded_table all_up) "team-off" = Some StatusDisabled
  /\ dict_get (claude_status guarded_table all_up) "catch_all"
     = Some (StatusProbed true 200 "ns-main").
Proof.
  assert (H : well_keyed (routes guarded_table)).
  { split.
    - constructor; [simpl; intros [E | []]; discriminate E|].
      constructor; [simpl; tauto | constructor].
    - repeat constructor. }
  refine (conj H (conj _ _)).
  - refine (proj1 (status_reports_every_route guarded_table all_up H) route_off _ _).
    + simpl. auto.
    + discriminate.
  - exact (proj2 (status_reports_every_route guarded_table all_up H)
             main_catch_all eq_refl eq_refl).
Defined.

Lemma health_counts_distinct_names_witness :
  Forall2 (fun item r => route_of_config item = Ok r)
          [entry_of route_A; entry_of route_W; entry_of route_A_moved]
          [route_A; route_W; route_A_moved]
  /\ routes_loaded (health_check (snd (init (Parsed (VDict repeating_config)) no_env))) = 2
  /\ routes_loaded (health_check (snd (init (Parsed (VDict repeating_config)) no_env))) <= 3.
Proof.
  assert (H : Forall2 (fun item r => route_of_config item = Ok r)
             [entry_of route_A; entry_of route_W; entry_of route_A_moved]
             [route_A; route_W; route_A_moved])
    by (repeat constructor).
  refine (conj H _).
  exact (health_counts_distinct_names repeating_config _ _ no_env _ _ eq_refl H eq_refl).
Defined.

Lemma minimal_handler_ignores_other_events_witness :
  dict_get [("webhookEvent", VStr "jira:issue_updated")] "webhookEvent"
  <> Some (VStr "jira:issue_created")
  /\ Minimal.handle_jira_webhook no_env (VDict [("webhookEvent", VStr "jira:issue_updated")])
     = Ok (Minimal.Respond Minimal.NotCreation).
Proof.
  assert (H : dict_get [("webhookEvent", VStr "jira:issue_updated")] "webhookEvent"
              <> Some (VStr "jira:issue_created")) by discriminate.
  exact (conj H (minimal_handler_ignores_other_events no_env _ H)).
Defined.

Lemma minimal_handler_posts_without_issue_witness :
  exists prompt k,
    Minimal.handle_jira_webhook no_env (VDict [("webhookEvent", VStr "jira:issue_created")])
    = Ok (Minimal.Post "http://localhost:3284/message" (VStr prompt) k)
    /\ str_in "New JIRA ticket created: None" prompt = true
    /\ str_in "Ticket URL: None/browse/None" prompt = true.
Proof.
  exact (minimal_handler_posts_without_issue no_env
           [("webhookEvent", VStr "jira:issue_created")] eq_refl eq_refl).
Defined.

End MoreInstances.
